(** * The image-embedding task of lightning-flash: registry-driven assembly

    A shallow embedding of [flash/image/embedding/model.py].  The class
    [ImageEmbedder] resolves a backbone, a training strategy and a
    pre-training transform by name in three registries, binds the objects the
    factories return into an adapter, installs the adapter on the task and
    forwards the training callbacks to it.

    Python objects live in an explicit store ([World]); a method is a
    computation in a state-and-exception monad over that store, so that
    aliasing of the adapter and the order of evaluation of the constructor
    are the ones of the source. *)

From stdpp Require Import base strings list gmap.

(** ** Python values *)

(** Objects of the external libraries (tensors, modules, loss objects,
    callables used as collate functions) are opaque: [VObj] carries the name
    of the class and an identity.

    What iterating a value gives is part of the value.  A tuple and a list
    yield their items, a string its characters (a [string] holds one [ascii]
    for each character; the names of this program are ASCII).  An object of
    an external class that can be iterated (a sequential module, a
    dictionary, a generator) is a [VIterable] with the items it yields, the
    first ones if they do not end.  [VObj], [VClass], [VEnum] and
    [VApplyToKeys] stand for objects that cannot be iterated. *)
#[warnings="-register-all"]
Inductive Value : Type :=
| VNone
| VBool (b : bool)
| VInt (n : Z)
| VFloat (literal : string)
| VStr (s : string)
| VClass (qualname : string)
| VEnum (cls member : string)
| VObj (cls : string) (id : nat)
| VTuple (items : list Value)
| VApplyToKeys (keys : Value) (transform : Value)
| VList (items : list Value)
| VIterable (cls : string) (id : nat) (items : list Value).

(** [DefaultDataKeys.INPUT], a member of an enumeration declared in
    [flash.core.data.data_source]. *)
Definition DefaultDataKeys_INPUT : Value := VEnum "DefaultDataKeys" "INPUT".

(** [ApplyToKeys(keys, transform)] of [flash.core.data.transforms]: a
    constructor call that stores its two arguments. *)
Definition ApplyToKeys (keys transform : Value) : Value :=
  VApplyToKeys keys transform.

(** A dictionary of keyword arguments; [Optional[Dict[str, Any]]] is
    [option Kwargs]. *)
Abbreviation Kwargs := (gmap string Value).

(** ** Exceptions *)

Inductive ExnClass : Type :=
| LookupError
| KeyError
| IndexError
| TypeError
| ValueError
| AttributeError
| OtherError (qualname : string).

Record Exn : Type := mkExn { exn_class : ExnClass; exn_message : string }.

(** [isinstance(e, LookupError)]: the class itself and its two built-in
    subclasses. *)
Definition is_LookupError (e : Exn) : bool :=
  match exn_class e with
  | LookupError | KeyError | IndexError => true
  | _ => false
  end.

Inductive Result (A : Type) : Type :=
| Ok (a : A)
| Raise (e : Exn).
Arguments Ok {A} a.
Arguments Raise {A} e.

(** A callable held by a registry: it receives the merged keyword arguments
    and returns a value or raises.  What a factory of an external library
    does besides is not the task's and is not in the store. *)
Definition Callable : Type := Kwargs → Result Value.

(** ** Named states *)

(** The four [ProcessState] classes of [flash.core.data.states] that the
    constructor instantiates; each wraps one value. *)
Inductive ProcessState : Type :=
| CollateFn (collate_fn : Value)
| ToTensorTransform (transform : Value)
| PostTensorTransform (transform : Value)
| PreTensorTransform (transform : Value).

(** [type(state).__name__], the key under which a state is stored. *)
Definition state_type (s : ProcessState) : string :=
  match s with
  | CollateFn _ => "CollateFn"
  | ToTensorTransform _ => "ToTensorTransform"
  | PostTensorTransform _ => "PostTensorTransform"
  | PreTensorTransform _ => "PreTensorTransform"
  end.

(** ** Adapter classes *)

(** Modelled from the spec: an adapter class, as named by the metadata of a
    training strategy; the classes themselves are not among the sources.  The
    spec gives what [from_task] does ("construct it bound to the task, loss
    function, backbone, head, hooks"); what the class adds is left open here:
    its constructor may raise on the four components, and the adapter it
    builds may already hold named states. *)
Record AdapterClass : Type := {
  adapter_class_name : string;
  adapter_class_init :
    Value → Value → Value → Value → Result (gmap string ProcessState)
}.

(** A value of a metadata mapping: a class with [from_task], or anything
    else. *)
Inductive MetaValue : Type :=
| MClass (c : AdapterClass)
| MValue (v : Value).

(** ** The registry *)

Module FlashRegistry.

(** Modelled from the spec: the registry entry of [flash.core.registry],
    which is not among the sources: "{key: string, factory: callable,
    metadata: mapping of string to value}". *)
Record Entry : Type := {
  name : string;
  fn : Callable;
  metadata : gmap string MetaValue
}.

(** Modelled from the spec: the class [FlashRegistry] of
    [flash.core.registry]: "a named lookup table mapping string keys to
    factory functions plus associated metadata", listed in insertion
    order, "keys unique per registry". *)
Record t : Type := {
  registry_name : string;
  functions : list Entry
}.

(** Modelled from the spec: [FlashRegistry(name)], the empty table. *)
Definition new (n : string) : t := {| registry_name := n; functions := [] |}.

(** Storing an entry in a table with unique keys.  The spec gives the
    invariant and the order of the listing, not what a key registered again
    does; here it does what it does in a Python [dict]: the key keeps its
    place and takes the new factory and metadata.  A new key goes to the
    end. *)
Fixpoint store (e : Entry) (l : list Entry) : list Entry :=
  match l with
  | [] => [e]
  | x :: l' =>
      if decide (name x = name e) then e :: l' else x :: store e l'
  end.

(** Modelled from the spec: [register(key, factory, metadata)]. *)
Definition register (key : string) (factory : Callable)
    (meta : gmap string MetaValue) (r : t) : t :=
  {| registry_name := registry_name r;
     functions :=
       store {| name := key; fn := factory; metadata := meta |} (functions r) |}.

(** The entry stored under [key], if any. *)
Fixpoint find (key : string) (l : list Entry) : option Entry :=
  match l with
  | [] => None
  | x :: l' => if decide (name x = key) then Some x else find key l'
  end.

(** Modelled from the spec: [get(key, with_metadata=True)], which "fails
    with LookupError-kind when key absent". *)
Definition get_with_metadata (r : t) (key : string) : Result Entry :=
  match find key (functions r) with
  | Some e => Ok e
  | None =>
      Raise (mkExn KeyError ("Key: " +:+ key +:+ " is not in " +:+ registry_name r))
  end.

(** Modelled from the spec: [get(key)], the factory alone. *)
Definition get (r : t) (key : string) : Result Callable :=
  match get_with_metadata r key with
  | Ok e => Ok (fn e)
  | Raise e => Raise e
  end.

(** Modelled from the spec: [available_keys()], the "insertion-order
    listing" of the keys. *)
Definition available_keys (r : t) : list string := name <$> functions r.

(** A registry filled by a sequence of [register] calls. *)
Definition registered (calls : list (string * Callable * gmap string MetaValue))
    (r : t) : t :=
  foldl (λ acc c, register c.1.1 c.1.2 c.2 acc) r calls.

End FlashRegistry.

(** The order in which keys were first inserted: a key seen again does not
    move. *)
Definition note_key (acc : list string) (k : string) : list string :=
  if decide (k ∈ acc) then acc else acc ++ [k].

Definition insertion_order (keys : list string) : list string :=
  foldl note_key [] keys.

(** ** The constructor's arguments *)

(** The parameters of [ImageEmbedder.__init__], in the order of the
    signature. *)
Record InitArgs : Type := {
  training_strategy : string;
  head : string;
  pretraining_transform : string;
  backbone : string;
  pretrained : bool;
  optimizer : Value;
  optimizer_kwargs : option Kwargs;
  scheduler : Value;
  scheduler_kwargs : option Kwargs;
  learning_rate : Value;
  backbone_kwargs : option Kwargs;
  training_strategy_kwargs : option Kwargs;
  pretraining_transform_kwargs : option Kwargs
}.

(** A call that passes the three required names and leaves "all other
    parameters at their defaults"; [backbone] has the default ["resnet"]
    and is a parameter here so that a registered key can be chosen. *)
Definition defaults (training_strategy head pretraining_transform backbone : string)
    : InitArgs :=
  {| training_strategy := training_strategy;
     head := head;
     pretraining_transform := pretraining_transform;
     backbone := backbone;
     pretrained := false;
     optimizer := VClass "torch.optim.SGD";
     optimizer_kwargs := None;
     scheduler := VNone;
     scheduler_kwargs := None;
     learning_rate := VFloat "1e-3";
     backbone_kwargs := None;
     training_strategy_kwargs := None;
     pretraining_transform_kwargs := None |}.

(** ** The object store *)

Abbreviation loc := nat.

(** A method call received by an adapter, with its arguments. *)
Inductive AdapterCall : Type :=
| call_on_train_start
| call_on_train_epoch_end
| call_on_train_batch_end (outputs batch batch_idx dataloader_idx : Value).

(** An adapter instance: the class it was made from, the task and the four
    components it is bound to, its named states, and the callbacks it has
    received, oldest first. *)
Record AdapterObj : Type := {
  adapter_class : string;
  adapter_task : loc;
  adapter_loss_fn : Value;
  adapter_backbone : Value;
  adapter_head : Value;
  adapter_hooks : Value;
  adapter_state : gmap string ProcessState;
  adapter_calls : list AdapterCall
}.

(** What [AdapterTask.__init__] receives next to the adapter. *)
Record OptimizerConfig : Type := {
  cfg_optimizer : Value;
  cfg_optimizer_kwargs : option Kwargs;
  cfg_scheduler : Value;
  cfg_scheduler_kwargs : option Kwargs;
  cfg_learning_rate : Value
}.

(** A task instance: the attributes the constructor sets. *)
Record TaskObj : Type := {
  task_hparams : option InitArgs;
  task_adapter : option loc;
  task_config : option OptimizerConfig
}.

Record World : Type := {
  tasks : gmap loc TaskObj;
  adapters : gmap loc AdapterObj;
  warnings : list string
}.

Definition set_tasks (f : gmap loc TaskObj → gmap loc TaskObj) (w : World) : World :=
  {| tasks := f (tasks w); adapters := adapters w; warnings := warnings w |}.

Definition set_adapters (f : gmap loc AdapterObj → gmap loc AdapterObj) (w : World)
    : World :=
  {| tasks := tasks w; adapters := f (adapters w); warnings := warnings w |}.

(** ** Computations: a store and an exception *)

Definition M (A : Type) : Type := World → Result A * World.

#[export] Instance M_ret : MRet M := λ A a w, (Ok a, w).

#[export] Instance M_bind : MBind M := λ A B f m w,
  match m w with
  | (Ok a, w') => f a w'
  | (Raise e, w') => (Raise e, w')
  end.

Definition raise {A : Type} (e : Exn) : M A := λ w, (Raise e, w).

(** A computation that does not touch the store. *)
Definition lift {A : Type} (r : Result A) : M A := λ w, (r, w).

Definition modify (f : World → World) : M unit := λ w, (Ok (), f w).

(** [warnings.warn(message)]: the message joins the warnings emitted so
    far.  Which of them the filters of the interpreter display is outside
    the model. *)
Definition warn (message : string) : M unit :=
  modify (λ w, {| tasks := tasks w; adapters := adapters w;
                  warnings := warnings w ++ [message] |}).

(** ** Calls, unpacking, subscripts *)

(** [f(k1=v1, ..., **mapping)]: the keyword dictionary is built before the
    body of [f] runs.  A [mapping] that is [None] is a [TypeError], and so is
    a key given twice. *)
Definition call (f : Callable) (keywords : list (string * Value))
    (mapping : option Kwargs) : Result Value :=
  match mapping with
  | None =>
      Raise (mkExn TypeError "argument after ** must be a mapping, not NoneType")
  | Some kw =>
      match List.find (λ kv, bool_decide (is_Some (kw !! kv.1))) keywords with
      | Some kv =>
          Raise (mkExn TypeError ("got multiple values for keyword argument " +:+ kv.1))
      | None => f (list_to_map keywords ∪ kw)
      end
  end.

(** [iter(v)], run to its end: the items of a tuple, a list or an iterable
    object, the characters of a string, each a string of length one; a
    [TypeError] for a value that cannot be iterated. *)
Definition iterate (v : Value) : Result (list Value) :=
  match v with
  | VTuple items | VList items | VIterable _ _ items => Ok items
  | VStr s => Ok ((λ c, VStr (String c EmptyString)) <$> String.list_ascii_of_string s)
  | VNone | VBool _ | VInt _ | VFloat _ | VClass _ | VEnum _ _ | VObj _ _
  | VApplyToKeys _ _ =>
      Raise (mkExn TypeError "cannot unpack non-iterable object")
  end.

(** [a, b = v]: [v] is iterated and must yield two items, no fewer and no
    more. *)
Definition unpack2 (v : Value) : Result (Value * Value) :=
  match iterate v with
  | Raise e => Raise e
  | Ok [a; b] => Ok (a, b)
  | Ok ([] | [_]) =>
      Raise (mkExn ValueError "not enough values to unpack (expected 2)")
  | Ok _ => Raise (mkExn ValueError "too many values to unpack (expected 2)")
  end.

(** [a, b, c = v]. *)
Definition unpack3 (v : Value) : Result (Value * Value * Value) :=
  match iterate v with
  | Raise e => Raise e
  | Ok [a; b; c] => Ok (a, b, c)
  | Ok ([] | [_] | [_; _]) =>
      Raise (mkExn ValueError "not enough values to unpack (expected 3)")
  | Ok _ => Raise (mkExn ValueError "too many values to unpack (expected 3)")
  end.

(** [mapping[key]] on a metadata dictionary. *)
Definition getitem (mapping : gmap string MetaValue) (key : string) : Result MetaValue :=
  match mapping !! key with
  | Some v => Ok v
  | None => Raise (mkExn KeyError key)
  end.

(** ** Class attributes *)

(** A class attribute that holds a registry: not defined on the class,
    defined as [None], or defined. *)
Inductive ClassAttr : Type :=
| AttrMissing
| AttrNone
| AttrValue (r : FlashRegistry.t).

(** The three class attributes of [ImageEmbedder] (or of a subclass). *)
Record TaskClass : Type := {
  training_strategies : ClassAttr;
  backbones : ClassAttr;
  transforms : ClassAttr
}.

(** [self.<attr>.get], up to the bound method: the attribute must exist and
    must not be [None]. *)
Definition registry_of (attr : string) (a : ClassAttr) : Result FlashRegistry.t :=
  match a with
  | AttrMissing =>
      Raise (mkExn AttributeError ("object has no attribute " +:+ attr))
  | AttrNone =>
      Raise (mkExn AttributeError "'NoneType' object has no attribute 'get'")
  | AttrValue r => Ok r
  end.

(** [getattr(cls, attr, None)]. *)
Definition getattr_or_None (a : ClassAttr) : option FlashRegistry.t :=
  match a with
  | AttrMissing | AttrNone => None
  | AttrValue r => Some r
  end.

(** ** The adapter *)

Module Adapter.

(** Modelled from the spec: [AdapterClass.from_task(task, loss_fn=...,
    backbone=..., head=..., hooks=...)], the class method that makes one
    new adapter "bound to the task, loss function, backbone, head, hooks"
    and returns it. *)
Definition from_task (c : AdapterClass) (task : loc)
    (loss_fn backbone head hooks : Value) : M loc := λ w,
  match adapter_class_init c loss_fn backbone head hooks with
  | Raise e => (Raise e, w)
  | Ok st =>
      let a := fresh (dom (adapters w)) in
      (Ok a,
       set_adapters
         (insert a {| adapter_class := adapter_class_name c;
                      adapter_task := task;
                      adapter_loss_fn := loss_fn;
                      adapter_backbone := backbone;
                      adapter_head := head;
                      adapter_hooks := hooks;
                      adapter_state := st;
                      adapter_calls := [] |}) w)
  end.

Definition with_state (s : ProcessState) (o : AdapterObj) : AdapterObj :=
  {| adapter_class := adapter_class o;
     adapter_task := adapter_task o;
     adapter_loss_fn := adapter_loss_fn o;
     adapter_backbone := adapter_backbone o;
     adapter_head := adapter_head o;
     adapter_hooks := adapter_hooks o;
     adapter_state := <[state_type s := s]> (adapter_state o);
     adapter_calls := adapter_calls o |}.

(** Modelled from the spec: [set_state(state)], which installs [state] as
    the named state of its class on the adapter, over whatever was there. *)
Definition set_state (a : loc) (s : ProcessState) : M unit :=
  modify (set_adapters (alter (with_state s) a)).

Definition received (c : AdapterCall) (o : AdapterObj) : AdapterObj :=
  {| adapter_class := adapter_class o;
     adapter_task := adapter_task o;
     adapter_loss_fn := adapter_loss_fn o;
     adapter_backbone := adapter_backbone o;
     adapter_head := adapter_head o;
     adapter_hooks := adapter_hooks o;
     adapter_state := adapter_state o;
     adapter_calls := adapter_calls o ++ [c] |}.

(** Modelled from the spec: the three callbacks of an adapter.  Their bodies
    belong to the adapter classes, which are not among the sources, and the
    spec says of them only that the task forwards to them; a call is
    modelled as one more entry, with its arguments, in what the adapter has
    received. *)
Definition on_train_start (a : loc) : M unit :=
  modify (set_adapters (alter (received call_on_train_start) a)).

Definition on_train_epoch_end (a : loc) : M unit :=
  modify (set_adapters (alter (received call_on_train_epoch_end) a)).

Definition on_train_batch_end (a : loc)
    (outputs batch batch_idx dataloader_idx : Value) : M unit :=
  modify (set_adapters
    (alter (received (call_on_train_batch_end outputs batch batch_idx dataloader_idx)) a)).

End Adapter.

(** ** The task base *)

Module AdapterTask.

Definition with_adapter (a : loc) (c : OptimizerConfig) (t : TaskObj) : TaskObj :=
  {| task_hparams := task_hparams t;
     task_adapter := Some a;
     task_config := Some c |}.

(** Modelled from the spec: [AdapterTask.__init__(adapter=..., optimizer=...,
    ...)], which is to "initialize the generic task base with the adapter
    and optimizer/scheduler configuration". *)
Definition __init__ (self : loc) (adapter : loc) (c : OptimizerConfig) : M unit :=
  modify (set_tasks (alter (with_adapter adapter c) self)).

(** [self.adapter]. *)
Definition adapter (self : loc) : M loc := λ w,
  match tasks w !! self ≫= task_adapter with
  | Some a => (Ok a, w)
  | None => (Raise (mkExn AttributeError "object has no attribute adapter"), w)
  end.

Definition with_hparams (a : InitArgs) (t : TaskObj) : TaskObj :=
  {| task_hparams := Some a;
     task_adapter := task_adapter t;
     task_config := task_config t |}.

(** [self.save_hyperparameters()]: the arguments of the enclosing
    [__init__] are recorded on the task. *)
Definition save_hyperparameters (self : loc) (a : InitArgs) : M unit :=
  modify (set_tasks (alter (with_hparams a) self)).

(** [cls.__new__(cls)]: a new task with no attribute set yet. *)
Definition __new__ : M loc := λ w,
  let self := fresh (dom (tasks w)) in
  (Ok self,
   set_tasks (insert self {| task_hparams := None; task_adapter := None;
                             task_config := None |}) w).

End AdapterTask.

(** ** The image embedder *)

Module ImageEmbedder.

Definition override_warning : string :=
  "Warning: VISSL ImageEmbedder overrides any user provided transforms"
  +:+ " with pre-defined transforms for the training strategy.".

(** [from_task] looked up on [metadata["metadata"]["adapter"]]. *)
Definition adapter_class_of (v : MetaValue) : Result AdapterClass :=
  match v with
  | MClass c => Ok c
  | MValue _ => Raise (mkExn AttributeError "object has no attribute from_task")
  end.

Definition __init__ (cls : TaskClass) (self : loc) (a : InitArgs) : M unit :=
  AdapterTask.save_hyperparameters self a;;
  let backbone_kwargs := default ∅ (backbone_kwargs a) in
  let training_strategy_kwargs := default ∅ (training_strategy_kwargs a) in
  registry ← lift (registry_of "backbones" (backbones cls));
  factory ← lift (FlashRegistry.get registry (backbone a));
  r ← lift (call factory [("pretrained", VBool (pretrained a))] (Some backbone_kwargs));
  '(backbone, _) ← lift (unpack2 r);
  registry ← lift (registry_of "training_strategies" (training_strategies cls));
  metadata ← lift (FlashRegistry.get_with_metadata registry (training_strategy a));
  r ← lift (call (FlashRegistry.fn metadata) [("head", VStr (head a))]
              (Some training_strategy_kwargs));
  '(loss_fn, head, hooks) ← lift (unpack3 r);
  adapter_entry ← lift (getitem (FlashRegistry.metadata metadata) "adapter");
  adapter_cls ← lift (adapter_class_of adapter_entry);
  adapter ← Adapter.from_task adapter_cls self loss_fn backbone head hooks;
  AdapterTask.__init__ self adapter
    {| cfg_optimizer := optimizer a;
       cfg_optimizer_kwargs := optimizer_kwargs a;
       cfg_scheduler := scheduler a;
       cfg_scheduler_kwargs := scheduler_kwargs a;
       cfg_learning_rate := learning_rate a |};;
  registry ← lift (registry_of "transforms" (transforms cls));
  factory ← lift (FlashRegistry.get registry (pretraining_transform a));
  r ← lift (call factory [] (pretraining_transform_kwargs a));
  '(transform, collate_fn) ← lift (unpack2 r);
  let to_tensor_transform := ApplyToKeys DefaultDataKeys_INPUT transform in
  ad ← AdapterTask.adapter self;
  Adapter.set_state ad (CollateFn collate_fn);;
  ad ← AdapterTask.adapter self;
  Adapter.set_state ad (ToTensorTransform to_tensor_transform);;
  ad ← AdapterTask.adapter self;
  Adapter.set_state ad (PostTensorTransform VNone);;
  ad ← AdapterTask.adapter self;
  Adapter.set_state ad (PreTensorTransform VNone);;
  warn override_warning.

(** [ImageEmbedder(...)]: the instance is made, [__init__] runs on it, and
    the caller receives the instance only if [__init__] returns. *)
Definition construct (cls : TaskClass) (a : InitArgs) : M loc :=
  self ← AdapterTask.__new__;
  __init__ cls self a;;
  mret self.

Definition on_train_start (self : loc) : M unit :=
  ad ← AdapterTask.adapter self;
  Adapter.on_train_start ad.

Definition on_train_epoch_end (self : loc) : M unit :=
  ad ← AdapterTask.adapter self;
  Adapter.on_train_epoch_end ad.

Definition on_train_batch_end (self : loc)
    (outputs batch batch_idx dataloader_idx : Value) : M unit :=
  ad ← AdapterTask.adapter self;
  Adapter.on_train_batch_end ad outputs batch batch_idx dataloader_idx.

Definition available_training_strategies (cls : TaskClass) : M (list string) :=
  let registry := getattr_or_None (training_strategies cls) in
  match registry with
  | None => mret []
  | Some registry => mret (FlashRegistry.available_keys registry)
  end.

End ImageEmbedder.

(** ** Running callbacks *)

(** The task method with the same name and arguments as a callback. *)
Definition invoke (self : loc) (c : AdapterCall) : M unit :=
  match c with
  | call_on_train_start => ImageEmbedder.on_train_start self
  | call_on_train_epoch_end => ImageEmbedder.on_train_epoch_end self
  | call_on_train_batch_end outputs batch batch_idx dataloader_idx =>
      ImageEmbedder.on_train_batch_end self outputs batch batch_idx dataloader_idx
  end.

(** A training run as the framework drives it: callbacks one after the
    other on the same task. *)
Fixpoint invoke_all (self : loc) (cs : list AdapterCall) : M unit :=
  match cs with
  | [] => mret ()
  | c :: cs' => invoke self c;; invoke_all self cs'
  end.

(** The adapter a task holds in a store, if any. *)
Definition adapter_of (w : World) (self : loc) : option loc :=
  tasks w !! self ≫= task_adapter.

(** The adapter object a task holds in a store, if any. *)
Definition adapter_obj_of (w : World) (self : loc) : option AdapterObj :=
  adapter_of w self ≫= λ ad, adapters w !! ad.

(** ** What a construction resolves *)

(** The objects the factories hand back during one construction. *)
Record Components : Type := {
  c_backbone : Value;
  c_loss_fn : Value;
  c_head : Value;
  c_hooks : Value;
  c_adapter_class : AdapterClass;
  c_initial_state : gmap string ProcessState;
  c_transform : Value;
  c_collate_fn : Value
}.

(** The backbone factory registered under [backbone a] returns a value that
    unpacks to [(vb, _)]. *)
Definition backbone_resolved (cls : TaskClass) (a : InitArgs) (vb : Value) : Prop :=
  ∃ r f v x,
    backbones cls = AttrValue r ∧
    FlashRegistry.get r (backbone a) = Ok f ∧
    call f [("pretrained", VBool (pretrained a))]
      (Some (default ∅ (backbone_kwargs a))) = Ok v ∧
    unpack2 v = Ok (vb, x).

(** The strategy registered under [training_strategy a] returns a value that
    unpacks to [(vl, vh, vk)] and its metadata name the adapter class [ac]. *)
Definition strategy_resolved (cls : TaskClass) (a : InitArgs)
    (vl vh vk : Value) (ac : AdapterClass) : Prop :=
  ∃ r m v,
    training_strategies cls = AttrValue r ∧
    FlashRegistry.get_with_metadata r (training_strategy a) = Ok m ∧
    call (FlashRegistry.fn m) [("head", VStr (head a))]
      (Some (default ∅ (training_strategy_kwargs a))) = Ok v ∧
    unpack3 v = Ok (vl, vh, vk) ∧
    FlashRegistry.metadata m !! "adapter" = Some (MClass ac).

(** The transform factory registered under [pretraining_transform a] returns
    a value that unpacks to [(vt, vc)]. *)
Definition transform_resolved (cls : TaskClass) (a : InitArgs) (vt vc : Value) : Prop :=
  ∃ r f v,
    transforms cls = AttrValue r ∧
    FlashRegistry.get r (pretraining_transform a) = Ok f ∧
    call f [] (pretraining_transform_kwargs a) = Ok v ∧
    unpack2 v = Ok (vt, vc).

(** Every lookup and every factory of the construction answers, with the
    components [c]. *)
Definition resolves (cls : TaskClass) (a : InitArgs) (c : Components) : Prop :=
  backbone_resolved cls a (c_backbone c) ∧
  strategy_resolved cls a (c_loss_fn c) (c_head c) (c_hooks c) (c_adapter_class c) ∧
  adapter_class_init (c_adapter_class c)
    (c_loss_fn c) (c_backbone c) (c_head c) (c_hooks c) = Ok (c_initial_state c) ∧
  transform_resolved cls a (c_transform c) (c_collate_fn c).

(** The adapter as [from_task] makes it. *)
Definition fresh_adapter (self : loc) (c : Components) : AdapterObj :=
  {| adapter_class := adapter_class_name (c_adapter_class c);
     adapter_task := self;
     adapter_loss_fn := c_loss_fn c;
     adapter_backbone := c_backbone c;
     adapter_head := c_head c;
     adapter_hooks := c_hooks c;
     adapter_state := c_initial_state c;
     adapter_calls := [] |}.

(** The adapter as the constructor leaves it: the four states set in the
    order of the source. *)
Definition installed_adapter (self : loc) (c : Components) : AdapterObj :=
  Adapter.with_state (PreTensorTransform VNone)
    (Adapter.with_state (PostTensorTransform VNone)
      (Adapter.with_state
         (ToTensorTransform (ApplyToKeys DefaultDataKeys_INPUT (c_transform c)))
         (Adapter.with_state (CollateFn (c_collate_fn c)) (fresh_adapter self c)))).

Definition config_of (a : InitArgs) : OptimizerConfig :=
  {| cfg_optimizer := optimizer a;
     cfg_optimizer_kwargs := optimizer_kwargs a;
     cfg_scheduler := scheduler a;
     cfg_scheduler_kwargs := scheduler_kwargs a;
     cfg_learning_rate := learning_rate a |}.

(** The store after a construction that resolved [c], started in [w]. *)
Definition constructed (a : InitArgs) (c : Components) (w : World) : World :=
  let self := fresh (dom (tasks w)) in
  let ad := fresh (dom (adapters w)) in
  {| tasks := <[self := {| task_hparams := Some a; task_adapter := Some ad;
                           task_config := Some (config_of a) |}]> (tasks w);
     adapters := <[ad := installed_adapter self c]> (adapters w);
     warnings := warnings w ++ [ImageEmbedder.override_warning] |}.

(** ** Failing steps *)

(** A step of the construction that raises [e] while every step before it
    answered: a key that a registry does not hold, or a factory (the
    adapter class among them) that raises when it is called. *)
Inductive step_raises (cls : TaskClass) (a : InitArgs) (e : Exn) : Prop :=
| backbone_lookup_raises r :
    backbones cls = AttrValue r →
    FlashRegistry.get r (backbone a) = Raise e →
    step_raises cls a e
| backbone_factory_raises r f :
    backbones cls = AttrValue r →
    FlashRegistry.get r (backbone a) = Ok f →
    call f [("pretrained", VBool (pretrained a))]
      (Some (default ∅ (backbone_kwargs a))) = Raise e →
    step_raises cls a e
| strategy_lookup_raises vb r :
    backbone_resolved cls a vb →
    training_strategies cls = AttrValue r →
    FlashRegistry.get_with_metadata r (training_strategy a) = Raise e →
    step_raises cls a e
| strategy_factory_raises vb r m :
    backbone_resolved cls a vb →
    training_strategies cls = AttrValue r →
    FlashRegistry.get_with_metadata r (training_strategy a) = Ok m →
    call (FlashRegistry.fn m) [("head", VStr (head a))]
      (Some (default ∅ (training_strategy_kwargs a))) = Raise e →
    step_raises cls a e
| adapter_class_raises vb vl vh vk ac :
    backbone_resolved cls a vb →
    strategy_resolved cls a vl vh vk ac →
    adapter_class_init ac vl vb vh vk = Raise e →
    step_raises cls a e
| transform_lookup_raises vb vl vh vk ac st r :
    backbone_resolved cls a vb →
    strategy_resolved cls a vl vh vk ac →
    adapter_class_init ac vl vb vh vk = Ok st →
    transforms cls = AttrValue r →
    FlashRegistry.get r (pretraining_transform a) = Raise e →
    step_raises cls a e
| transform_factory_raises vb vl vh vk ac st r f :
    backbone_resolved cls a vb →
    strategy_resolved cls a vl vh vk ac →
    adapter_class_init ac vl vb vh vk = Ok st →
    transforms cls = AttrValue r →
    FlashRegistry.get r (pretraining_transform a) = Ok f →
    call f [] (pretraining_transform_kwargs a) = Raise e →
    step_raises cls a e.

(** ** Forwarding *)

(** The outcome of a callback that reaches the adapter [ad], which holds
    [o], once: [ad] has received [c] after what it had received, and nothing
    else in the store has changed. *)
Definition forwarded (w : World) (ad : loc) (o : AdapterObj) (c : AdapterCall)
    : Result unit * World :=
  (Ok (), {| tasks := tasks w;
             adapters := <[ad := Adapter.received c o]> (adapters w);
             warnings := warnings w |}).

(** ** A small installation *)

(** The end-to-end scenario of the specification: a backbone "dummy", a
    strategy "noop" with an identity loss and head, a transform "identity"
    with a trivial collate function. *)
Module Scenario.

Definition dummy_backbone : Callable :=
  λ _, Ok (VTuple [VObj "DummyBackbone" 0; VInt 512]).

Definition noop_strategy : Callable := λ kw,
  match kw !! "head" with
  | Some (VStr h) =>
      Ok (VTuple [VObj "IdentityLoss" 0; VObj h 0; VTuple []])
  | _ => Raise (mkExn TypeError "missing keyword argument head")
  end.

Definition identity_transform : Callable :=
  λ _, Ok (VTuple [VObj "IdentityTransform" 0; VObj "default_collate" 0]).

Definition broken_transform : Callable :=
  λ _, Raise (mkExn (OtherError "RuntimeError") "size must be positive").

(** An adapter class whose instances start with transforms a user
    configured. *)
Definition user_states : gmap string ProcessState :=
  <["PreTensorTransform" := PreTensorTransform (VObj "UserCrop" 0)]>
    (<["PostTensorTransform" := PostTensorTransform (VObj "UserNormalize" 0)]>
      (<["CollateFn" := CollateFn (VObj "user_collate" 0)]> ∅)).

Definition noop_adapter : AdapterClass :=
  {| adapter_class_name := "NoopAdapter";
     adapter_class_init := λ _ _ _ _, Ok user_states |}.

Definition backbone_registry : FlashRegistry.t :=
  FlashRegistry.register "dummy" dummy_backbone ∅ (FlashRegistry.new "backbones").

Definition strategy_registry : FlashRegistry.t :=
  FlashRegistry.register "noop" noop_strategy
    (<["adapter" := MClass noop_adapter]> ∅)
    (FlashRegistry.new "embedder_training_strategies").

Definition transform_calls : list (string * Callable * gmap string MetaValue) :=
  [("identity", broken_transform, ∅);
   ("broken", broken_transform, ∅);
   ("identity", identity_transform, ∅)].

Definition transform_registry : FlashRegistry.t :=
  FlashRegistry.registered transform_calls (FlashRegistry.new "embedder_transforms").

Definition cls : TaskClass :=
  {| training_strategies := AttrValue strategy_registry;
     backbones := AttrValue backbone_registry;
     transforms := AttrValue transform_registry |}.

(** A class that lists the transforms as its strategies. *)
Definition listing_cls : TaskClass :=
  {| training_strategies := AttrValue transform_registry;
     backbones := AttrValue backbone_registry;
     transforms := AttrValue transform_registry |}.

(** [ImageEmbedder("noop", "identity_head", "identity", backbone="dummy")]. *)
Definition default_args : InitArgs :=
  defaults "noop" "identity_head" "identity" "dummy".

Definition with_transform (key : string) (kw : option Kwargs) (a : InitArgs)
    : InitArgs :=
  {| training_strategy := training_strategy a;
     head := head a;
     pretraining_transform := key;
     backbone := backbone a;
     pretrained := pretrained a;
     optimizer := optimizer a;
     optimizer_kwargs := optimizer_kwargs a;
     scheduler := scheduler a;
     scheduler_kwargs := scheduler_kwargs a;
     learning_rate := learning_rate a;
     backbone_kwargs := backbone_kwargs a;
     training_strategy_kwargs := training_strategy_kwargs a;
     pretraining_transform_kwargs := kw |}.

(** The same call with [pretraining_transform_kwargs={}]. *)
Definition args : InitArgs := with_transform "identity" (Some ∅) default_args.

(** The same call with the transform that raises. *)
Definition broken_args : InitArgs := with_transform "broken" (Some ∅) default_args.

(** The same call with a transform nobody registered. *)
Definition unknown_args : InitArgs := with_transform "missing" (Some ∅) default_args.

(** An adapter class whose instances start with no named state, and the
    same installation with that class behind "noop". *)
Definition bare_adapter : AdapterClass :=
  {| adapter_class_name := "BareAdapter";
     adapter_class_init := λ _ _ _ _, Ok ∅ |}.

Definition bare_cls : TaskClass :=
  {| training_strategies :=
       AttrValue (FlashRegistry.register "noop" noop_strategy
                    (<["adapter" := MClass bare_adapter]> ∅)
                    (FlashRegistry.new "embedder_training_strategies"));
     backbones := AttrValue backbone_registry;
     transforms := AttrValue transform_registry |}.

(** A class without the attribute [training_strategies]. *)
Definition no_strategies_cls : TaskClass :=
  {| training_strategies := AttrMissing;
     backbones := AttrValue backbone_registry;
     transforms := AttrValue transform_registry |}.

Definition w0 : World := {| tasks := ∅; adapters := ∅; warnings := [] |}.

Definition components : Components :=
  {| c_backbone := VObj "DummyBackbone" 0;
     c_loss_fn := VObj "IdentityLoss" 0;
     c_head := VObj "identity_head" 0;
     c_hooks := VTuple [];
     c_adapter_class := noop_adapter;
     c_initial_state := user_states;
     c_transform := VObj "IdentityTransform" 0;
     c_collate_fn := VObj "default_collate" 0 |}.

Definition bare_components : Components :=
  {| c_backbone := VObj "DummyBackbone" 0;
     c_loss_fn := VObj "IdentityLoss" 0;
     c_head := VObj "identity_head" 0;
     c_hooks := VTuple [];
     c_adapter_class := bare_adapter;
     c_initial_state := ∅;
     c_transform := VObj "IdentityTransform" 0;
     c_collate_fn := VObj "default_collate" 0 |}.

End Scenario.

(** ** The module level: registries with and without VISSL *)

(** The three registries that the module imports from
    [flash.image.embedding.backbones], [.strategies] and [.transforms] when
    VISSL is installed.  Their contents are filled elsewhere. *)
Record Vissl : Type := {
  vissl_backbones : FlashRegistry.t;
  vissl_strategies : FlashRegistry.t;
  vissl_transforms : FlashRegistry.t
}.

(** The module-level names: the imported registry when [_VISSL_AVAILABLE],
    else a new registry with the name the source gives it. *)
Definition IMAGE_EMBEDDER_BACKBONES (_VISSL_AVAILABLE : bool) (vissl : Vissl)
    : FlashRegistry.t :=
  if _VISSL_AVAILABLE then vissl_backbones vissl else FlashRegistry.new "backbones".

Definition IMAGE_EMBEDDER_STRATEGIES (_VISSL_AVAILABLE : bool) (vissl : Vissl)
    : FlashRegistry.t :=
  if _VISSL_AVAILABLE then vissl_strategies vissl
  else FlashRegistry.new "embedder_training_strategies".

Definition IMAGE_EMBEDDER_TRANSFORMS (_VISSL_AVAILABLE : bool) (vissl : Vissl)
    : FlashRegistry.t :=
  if _VISSL_AVAILABLE then vissl_transforms vissl
  else FlashRegistry.new "embedder_transforms".

(** The class attributes [training_strategies], [backbones] and
    [transforms] of [ImageEmbedder] itself. *)
Definition ImageEmbedder_class (_VISSL_AVAILABLE : bool) (vissl : Vissl) : TaskClass :=
  {| training_strategies := AttrValue (IMAGE_EMBEDDER_STRATEGIES _VISSL_AVAILABLE vissl);
     backbones := AttrValue (IMAGE_EMBEDDER_BACKBONES _VISSL_AVAILABLE vissl);
     transforms := AttrValue (IMAGE_EMBEDDER_TRANSFORMS _VISSL_AVAILABLE vissl) |}.

(** ** The store of a construction that raises *)

(** The store when the constructor raises before [from_task] returns: the
    new task holds the saved arguments and nothing else. *)
Definition hparams_only (a : InitArgs) (w : World) : World :=
  {| tasks := <[fresh (dom (tasks w)) :=
                 {| task_hparams := Some a; task_adapter := None;
                    task_config := None |}]> (tasks w);
     adapters := adapters w;
     warnings := warnings w |}.

(** The store when the constructor raises after the base class was
    initialised: the new task holds the new adapter, which is bound to the
    components and still has the states [st] it started with. *)
Definition half_built (a : InitArgs) (ac : AdapterClass)
    (vl vb vh vk : Value) (st : gmap string ProcessState) (w : World) : World :=
  let self := fresh (dom (tasks w)) in
  let ad := fresh (dom (adapters w)) in
  {| tasks := <[self := {| task_hparams := Some a; task_adapter := Some ad;
                           task_config := Some (config_of a) |}]> (tasks w);
     adapters := <[ad := {| adapter_class := adapter_class_name ac;
                            adapter_task := self;
                            adapter_loss_fn := vl;
                            adapter_backbone := vb;
                            adapter_head := vh;
                            adapter_hooks := vk;
                            adapter_state := st;
                            adapter_calls := [] |}]> (adapters w);
     warnings := warnings w |}.

(** ** More installations *)

Module Fixtures.

Definition with_backbone (key : string) (kw : option Kwargs) (a : InitArgs)
    : InitArgs :=
  {| training_strategy := training_strategy a;
     head := head a;
     pretraining_transform := pretraining_transform a;
     backbone := key;
     pretrained := pretrained a;
     optimizer := optimizer a;
     optimizer_kwargs := optimizer_kwargs a;
     scheduler := scheduler a;
     scheduler_kwargs := scheduler_kwargs a;
     learning_rate := learning_rate a;
     backbone_kwargs := kw;
     training_strategy_kwargs := training_strategy_kwargs a;
     pretraining_transform_kwargs := pretraining_transform_kwargs a |}.

Definition with_strategy_kwargs (kw : option Kwargs) (a : InitArgs) : InitArgs :=
  {| training_strategy := training_strategy a;
     head := head a;
     pretraining_transform := pretraining_transform a;
     backbone := backbone a;
     pretrained := pretrained a;
     optimizer := optimizer a;
     optimizer_kwargs := optimizer_kwargs a;
     scheduler := scheduler a;
     scheduler_kwargs := scheduler_kwargs a;
     learning_rate := learning_rate a;
     backbone_kwargs := backbone_kwargs a;
     training_strategy_kwargs := kw;
     pretraining_transform_kwargs := pretraining_transform_kwargs a |}.

(** [ImageEmbedder(..., backbone_kwargs={"pretrained": True})]. *)
Definition pretrained_twice_args : InitArgs :=
  with_backbone "dummy" (Some (<["pretrained" := VBool true]> ∅)) Scenario.args.

(** [ImageEmbedder(..., training_strategy_kwargs={"head": "other_head"})]. *)
Definition head_twice_args : InitArgs :=
  with_strategy_kwargs (Some (<["head" := VStr "other_head"]> ∅)) Scenario.args.

(** The call of the scenario with the default backbone ["resnet"], which
    the scenario does not register. *)
Definition resnet_args : InitArgs := with_backbone "resnet" None Scenario.args.

(** A backbone factory that returns the backbone alone, not a pair; the
    backbone is an object that cannot be iterated. *)
Definition lone_backbone : Callable := λ _, Ok (VObj "DummyBackbone" 0).

Definition lone_cls : TaskClass :=
  {| training_strategies := AttrValue Scenario.strategy_registry;
     backbones :=
       AttrValue (FlashRegistry.register "dummy" lone_backbone ∅
                    (FlashRegistry.new "backbones"));
     transforms := AttrValue Scenario.transform_registry |}.

(** A strategy registered without metadata. *)
Definition plain_strategy_entry : FlashRegistry.Entry :=
  {| FlashRegistry.name := "noop";
     FlashRegistry.fn := Scenario.noop_strategy;
     FlashRegistry.metadata := ∅ |}.

Definition plain_cls : TaskClass :=
  {| training_strategies :=
       AttrValue (FlashRegistry.register "noop" Scenario.noop_strategy ∅
                    (FlashRegistry.new "embedder_training_strategies"));
     backbones := AttrValue Scenario.backbone_registry;
     transforms := AttrValue Scenario.transform_registry |}.

(** A store in which one task of the scenario has been constructed. *)
Definition w1 : World :=
  (ImageEmbedder.construct Scenario.cls Scenario.args Scenario.w0).2.

(** A store in which two have. *)
Definition w2 : World := (ImageEmbedder.construct Scenario.cls Scenario.args w1).2.

End Fixtures.

(** * Proofs *)

(** ** Running a computation step by step *)

Section monad_laws.
Context {A B : Type}.
Implicit Types (f : A → M B) (w : World).

Lemma bind_lift_ok f a w : (lift (Ok a) ≫= f) w = f a w.
Proof. reflexivity. Qed.

Lemma bind_lift_raise f e w : (lift (Raise e) ≫= f) w = (Raise e, w).
Proof. reflexivity. Qed.

Lemma bind_run (m : M A) f w :
  (m ≫= f) w = match m w with (Ok a, w') => f a w' | (Raise e, w') => (Raise e, w') end.
Proof. reflexivity. Qed.
End monad_laws.

Lemma bind_modify {B} (g : World → World) (f : unit → M B) w :
  (modify g ≫= f) w = f () (g w).
Proof. reflexivity. Qed.

Lemma bind_adapter {B} (f : loc → M B) self ad w :
  adapter_of w self = Some ad → (AdapterTask.adapter self ≫= f) w = f ad w.
Proof.
  intros H. rewrite bind_run. unfold AdapterTask.adapter.
  unfold adapter_of in H. by rewrite H.
Qed.

Lemma registry_of_ok n at' r : registry_of n at' = Ok r → at' = AttrValue r.
Proof. destruct at'; simpl; intros; by simplify_eq. Qed.

Lemma getitem_ok m k v : getitem m k = Ok v → m !! k = Some v.
Proof. unfold getitem. destruct (m !! k); intros; by simplify_eq. Qed.

Lemma adapter_class_of_ok v c : ImageEmbedder.adapter_class_of v = Ok c → v = MClass c.
Proof. destruct v; simpl; intros; by simplify_eq. Qed.

Tactic Notation "step_lift" "as" simple_intropattern(p) ident(E) :=
  match goal with
  | |- context [ (lift ?r ≫= _) _ ] =>
      destruct r as [p|?] eqn:E;
      [ rewrite bind_lift_ok | rewrite bind_lift_raise; simpl; try discriminate ]
  end.

Lemma unpack2_tuple x y : unpack2 (VTuple [x; y]) = Ok (x, y).
Proof. reflexivity. Qed.

Lemma unpack3_tuple x y z : unpack3 (VTuple [x; y; z]) = Ok (x, y, z).
Proof. reflexivity. Qed.

(** What [__init__] answers, whatever the store. *)
Lemma init_ok_resolves cls self a w :
  (ImageEmbedder.__init__ cls self a w).1 = Ok () → ∃ c, resolves cls a c.
Proof.
  unfold ImageEmbedder.__init__.
  unfold AdapterTask.save_hyperparameters. rewrite bind_modify.
  step_lift as rb Erb. step_lift as fb Efb. step_lift as rvb Ecb.
  step_lift as [vb vx] Eub. cbv beta iota.
  step_lift as rs Ers. step_lift as ms Ems. step_lift as rvs Ecs.
  step_lift as [[vl vh] vk] Eus. cbv beta iota.
  step_lift as ae Eae. step_lift as ac Eac.
  rewrite bind_run. unfold Adapter.from_task.
  destruct (adapter_class_init ac vl vb vh vk) as [st|?] eqn:Einit;
    [|simpl; discriminate].
  unfold AdapterTask.__init__. rewrite bind_modify.
  step_lift as rt Ert. step_lift as ft Eft. step_lift as rvt Ect.
  step_lift as [vt vc] Eut. intros _.
  apply registry_of_ok in Erb, Ers, Ert.
  apply getitem_ok in Eae. apply adapter_class_of_ok in Eac. subst.
  exists {| c_backbone := vb; c_loss_fn := vl; c_head := vh; c_hooks := vk;
            c_adapter_class := ac; c_initial_state := st;
            c_transform := vt; c_collate_fn := vc |}.
  repeat split; simpl;
    [by exists rb, fb, rvb, vx | by exists rs, ms, rvs | done | by exists rt, ft, rvt].
Qed.

Ltac use_resolved :=
  repeat match goal with
  | H : unpack2 ?v = Ok _ |- context [ lift (unpack2 ?v) ] =>
      rewrite H, bind_lift_ok; cbv beta iota
  | H : unpack3 ?v = Ok _ |- context [ lift (unpack3 ?v) ] =>
      rewrite H, bind_lift_ok; cbv beta iota
  | |- context [ unpack2 (VTuple [_; _]) ] =>
      rewrite unpack2_tuple, bind_lift_ok; cbv beta iota
  | |- context [ unpack3 (VTuple [_; _; _]) ] =>
      rewrite unpack3_tuple, bind_lift_ok; cbv beta iota
  | H : ?x = AttrValue _ |- context [ registry_of _ ?x ] =>
      rewrite H; simpl registry_of; rewrite bind_lift_ok
  | H : ?r = Ok _ |- context [ lift ?r ] => rewrite H, bind_lift_ok
  | H : ?r = Raise _ |- context [ lift ?r ] => rewrite H, bind_lift_raise
  end.

Lemma init_resolved cls self a w c t :
  tasks w !! self = Some t →
  resolves cls a c →
  ImageEmbedder.__init__ cls self a w =
    (Ok (),
     {| tasks := <[self := {| task_hparams := Some a;
                              task_adapter := Some (fresh (dom (adapters w)));
                              task_config := Some (config_of a) |}]> (tasks w);
        adapters := <[fresh (dom (adapters w)) := installed_adapter self c]> (adapters w);
        warnings := warnings w ++ [ImageEmbedder.override_warning] |}).
Proof.
  intros Ht ((rb & fb & rvb & vx & Hb & Hfb & Hcb & Hub)
             & (rs & ms & rvs & Hs & Hms & Hcs & Hus & Had)
             & Hinit & (rt & ft & rvt & Htr & Hft & Hct & Hut)).
  unfold ImageEmbedder.__init__.
  unfold AdapterTask.save_hyperparameters. rewrite bind_modify.
  use_resolved.
  unfold getitem. rewrite Had, bind_lift_ok. simpl ImageEmbedder.adapter_class_of.
  rewrite bind_lift_ok, bind_run. unfold Adapter.from_task. rewrite Hinit.
  unfold AdapterTask.__init__. rewrite bind_modify.
  use_resolved.
  set (ad := fresh (dom (adapters _))).
  match goal with |- _ ?w1 = _ => set (w' := w1) end.
  assert (Hof : adapter_of w' self = Some ad).
  { unfold adapter_of, w'. simpl. rewrite !lookup_alter_eq, Ht. done. }
  unfold Adapter.set_state, warn.
  repeat (rewrite (bind_adapter _ self ad), bind_modify by done).
  unfold modify. f_equal. unfold w', set_adapters, set_tasks. simpl.
  f_equal.
  - rewrite <-(insert_id (tasks w) self t) at 1 by done.
    by rewrite !alter_insert_eq.
  - by rewrite !alter_insert_eq.
Qed.

Lemma construct_run cls a w :
  ImageEmbedder.construct cls a w =
    let self := fresh (dom (tasks w)) in
    let w1 := set_tasks (insert self {| task_hparams := None; task_adapter := None;
                                        task_config := None |}) w in
    match ImageEmbedder.__init__ cls self a w1 with
    | (Ok _, w') => (Ok self, w')
    | (Raise e, w') => (Raise e, w')
    end.
Proof. reflexivity. Qed.

Lemma construct_resolved cls a w c :
  resolves cls a c →
  ImageEmbedder.construct cls a w = (Ok (fresh (dom (tasks w))), constructed a c w).
Proof.
  intros Hc. rewrite construct_run. cbv zeta.
  erewrite init_resolved; [| apply lookup_insert_eq | done].
  unfold constructed. simpl. by rewrite insert_insert_eq.
Qed.

Lemma construct_ok_inv cls a w self :
  (ImageEmbedder.construct cls a w).1 = Ok self →
  ∃ c, resolves cls a c ∧ self = fresh (dom (tasks w)) ∧
       ImageEmbedder.construct cls a w = (Ok self, constructed a c w).
Proof.
  intros H. assert (∃ c, resolves cls a c) as [c Hc].
  { rewrite construct_run in H. cbv zeta in H.
    destruct (ImageEmbedder.__init__ _ _ _ _) as [[[]|e] w'] eqn:E; [|done].
    eapply init_ok_resolves. by rewrite E. }
  exists c. rewrite (construct_resolved _ _ _ _ Hc) in H |- *.
  simpl in H. by simplify_eq.
Qed.

Lemma construct_init_raises cls a w e :
  (∀ self w1, (ImageEmbedder.__init__ cls self a w1).1 = Raise e) →
  (ImageEmbedder.construct cls a w).1 = Raise e.
Proof.
  intros H. rewrite construct_run. cbv zeta.
  match goal with |- context [ImageEmbedder.__init__ cls ?s a ?w1] =>
    specialize (H s w1); destruct (ImageEmbedder.__init__ cls s a w1) as [[[]|e'] w'] end;
    simpl in *; by simplify_eq.
Qed.

Ltac start_init :=
  unfold ImageEmbedder.__init__, AdapterTask.save_hyperparameters;
  rewrite bind_modify.

Lemma init_backbone_lookup_raises cls self a w r e :
  backbones cls = AttrValue r →
  FlashRegistry.get r (backbone a) = Raise e →
  (ImageEmbedder.__init__ cls self a w).1 = Raise e.
Proof. intros. start_init. by use_resolved. Qed.

Lemma init_backbone_raises cls self a w r f e :
  backbones cls = AttrValue r →
  FlashRegistry.get r (backbone a) = Ok f →
  call f [("pretrained", VBool (pretrained a))]
    (Some (default ∅ (backbone_kwargs a))) = Raise e →
  (ImageEmbedder.__init__ cls self a w).1 = Raise e.
Proof. intros. start_init. by use_resolved. Qed.

Lemma init_strategy_lookup_raises cls self a w vb r e :
  backbone_resolved cls a vb →
  training_strategies cls = AttrValue r →
  FlashRegistry.get_with_metadata r (training_strategy a) = Raise e →
  (ImageEmbedder.__init__ cls self a w).1 = Raise e.
Proof. intros (rb & fb & rvb & vx & ? & ? & ? & ?) **. start_init. by use_resolved. Qed.

Lemma init_strategy_raises cls self a w vb r m e :
  backbone_resolved cls a vb →
  training_strategies cls = AttrValue r →
  FlashRegistry.get_with_metadata r (training_strategy a) = Ok m →
  call (FlashRegistry.fn m) [("head", VStr (head a))]
    (Some (default ∅ (training_strategy_kwargs a))) = Raise e →
  (ImageEmbedder.__init__ cls self a w).1 = Raise e.
Proof. intros (rb & fb & rvb & vx & ? & ? & ? & ?) **. start_init. by use_resolved. Qed.

Ltac use_adapter_class :=
  match goal with
  | H : FlashRegistry.metadata _ !! "adapter" = Some (MClass _) |- _ =>
      unfold getitem; rewrite H, bind_lift_ok;
      simpl ImageEmbedder.adapter_class_of; rewrite bind_lift_ok
  end.

Lemma init_adapter_raises cls self a w vb vl vh vk ac e :
  backbone_resolved cls a vb →
  strategy_resolved cls a vl vh vk ac →
  adapter_class_init ac vl vb vh vk = Raise e →
  (ImageEmbedder.__init__ cls self a w).1 = Raise e.
Proof.
  intros (rb & fb & rvb & vx & ? & ? & ? & ?) (rs & ms & rvs & ? & ? & ? & ? & ?) Hinit.
  start_init. use_resolved. use_adapter_class.
  rewrite bind_run. unfold Adapter.from_task. by rewrite Hinit.
Qed.

Lemma init_transform_lookup_raises cls self a w vb vl vh vk ac st r e :
  backbone_resolved cls a vb →
  strategy_resolved cls a vl vh vk ac →
  adapter_class_init ac vl vb vh vk = Ok st →
  transforms cls = AttrValue r →
  FlashRegistry.get r (pretraining_transform a) = Raise e →
  (ImageEmbedder.__init__ cls self a w).1 = Raise e.
Proof.
  intros (rb & fb & rvb & vx & ? & ? & ? & ?) (rs & ms & rvs & ? & ? & ? & ? & ?) Hinit **.
  start_init. use_resolved. use_adapter_class.
  rewrite bind_run. unfold Adapter.from_task. rewrite Hinit.
  unfold AdapterTask.__init__. rewrite bind_modify. by use_resolved.
Qed.

Lemma init_transform_raises cls self a w vb vl vh vk ac st r f e :
  backbone_resolved cls a vb →
  strategy_resolved cls a vl vh vk ac →
  adapter_class_init ac vl vb vh vk = Ok st →
  transforms cls = AttrValue r →
  FlashRegistry.get r (pretraining_transform a) = Ok f →
  call f [] (pretraining_transform_kwargs a) = Raise e →
  (ImageEmbedder.__init__ cls self a w).1 = Raise e.
Proof.
  intros (rb & fb & rvb & vx & ? & ? & ? & ?) (rs & ms & rvs & ? & ? & ? & ? & ?) Hinit **.
  start_init. use_resolved. use_adapter_class.
  rewrite bind_run. unfold Adapter.from_task. rewrite Hinit.
  unfold AdapterTask.__init__. rewrite bind_modify. by use_resolved.
Qed.

(** ** Facts about the registry *)
Lemma find_None key l : FlashRegistry.find key l = None ↔ key ∉ FlashRegistry.name <$> l.
Proof.
  induction l as [|x l IH]; simpl.
  - split; [intros _; apply not_elem_of_nil | done].
  - rewrite not_elem_of_cons.
    destruct (decide (FlashRegistry.name x = key)) as [Hx|Hx].
    + split; [done | intros [? _]; congruence].
    + rewrite IH. split; [intros; split; [congruence | done] | by intros [_ ?]].
Qed.

Lemma find_Some_name key l e : FlashRegistry.find key l = Some e → FlashRegistry.name e = key.
Proof.
  induction l as [|x l IH]; simpl; [done|]. case_decide; naive_solver.
Qed.

Lemma get_with_metadata_absent r key :
  key ∉ FlashRegistry.available_keys r →
  ∃ e, FlashRegistry.get_with_metadata r key = Raise e ∧ is_LookupError e = true.
Proof.
  intros H%find_None. unfold FlashRegistry.get_with_metadata. rewrite H. eauto.
Qed.

Lemma get_absent r key :
  key ∉ FlashRegistry.available_keys r →
  ∃ e, FlashRegistry.get r key = Raise e ∧ is_LookupError e = true.
Proof.
  intros (e & He & ?)%get_with_metadata_absent. unfold FlashRegistry.get.
  rewrite He. eauto.
Qed.

Lemma store_names e l :
  FlashRegistry.name <$> FlashRegistry.store e l =
  note_key (FlashRegistry.name <$> l) (FlashRegistry.name e).
Proof.
  unfold note_key. induction l as [|x l IH].
  - simpl. destruct (decide (FlashRegistry.name e ∈ [])) as [H|H]; [|done].
    by apply elem_of_nil in H.
  - cbn [FlashRegistry.store]. rewrite !fmap_cons.
    destruct (decide (FlashRegistry.name x = FlashRegistry.name e)) as [Hx|Hx].
    + rewrite decide_True by (rewrite Hx; left). by rewrite fmap_cons, Hx.
    + rewrite fmap_cons, IH.
      destruct (decide (FlashRegistry.name e ∈ FlashRegistry.name <$> l)) as [Hin|Hin].
      * by rewrite decide_True by (by right).
      * rewrite decide_False; [done|]. rewrite not_elem_of_cons. split; congruence.
Qed.

Lemma available_keys_register key f m r :
  FlashRegistry.available_keys (FlashRegistry.register key f m r) =
  note_key (FlashRegistry.available_keys r) key.
Proof. unfold FlashRegistry.available_keys. simpl. by rewrite store_names. Qed.

Lemma available_keys_registered calls r :
  FlashRegistry.available_keys (FlashRegistry.registered calls r) =
  foldl note_key (FlashRegistry.available_keys r) (calls.*1.*1).
Proof.
  revert r. induction calls as [|c calls IH]; intros r; simpl; [done|].
  unfold FlashRegistry.registered in *. simpl. rewrite IH.
  by rewrite available_keys_register.
Qed.

Lemma note_key_NoDup acc k : NoDup acc → NoDup (note_key acc k).
Proof.
  intros H. unfold note_key. case_decide; [done|].
  apply NoDup_app. repeat split; [done| |apply NoDup_singleton].
  intros x Hx ->%list_elem_of_singleton. done.
Qed.

Lemma elem_of_note_key acc k x : x ∈ note_key acc k ↔ x ∈ acc ∨ x = k.
Proof.
  unfold note_key. destruct (decide (k ∈ acc)).
  - split; [by left | intros [?| ->]; done].
  - by rewrite elem_of_app, list_elem_of_singleton.
Qed.

Lemma foldl_note_key_NoDup keys acc : NoDup acc → NoDup (foldl note_key acc keys).
Proof.
  revert acc. induction keys; simpl; intros; [done|].
  by apply IHkeys, note_key_NoDup.
Qed.

Lemma elem_of_foldl_note_key keys acc x :
  x ∈ foldl note_key acc keys ↔ x ∈ acc ∨ x ∈ keys.
Proof.
  revert acc. induction keys as [|k keys IH]; simpl; intros acc.
  - rewrite elem_of_nil. tauto.
  - rewrite IH, elem_of_note_key, elem_of_cons. tauto.
Qed.

(** ** Facts about the callbacks *)
Lemma invoke_live self c w ad o :
  adapter_of w self = Some ad →
  adapters w !! ad = Some o →
  invoke self c w =
    (Ok (), {| tasks := tasks w;
               adapters := <[ad := Adapter.received c o]> (adapters w);
               warnings := warnings w |}).
Proof.
  intros Had Ho.
  assert (∀ c', alter (Adapter.received c') ad (adapters w)
                = <[ad := Adapter.received c' o]> (adapters w)) as Halter.
  { intros c'. rewrite <-(insert_id (adapters w) ad o) at 1 by done.
    by rewrite alter_insert_eq. }
  destruct c; simpl;
    unfold ImageEmbedder.on_train_start, ImageEmbedder.on_train_epoch_end,
      ImageEmbedder.on_train_batch_end;
    rewrite (bind_adapter _ self ad) by done;
    unfold Adapter.on_train_start, Adapter.on_train_epoch_end,
      Adapter.on_train_batch_end, modify, set_adapters; by rewrite Halter.
Qed.

Lemma invoke_all_live self cs w ad o :
  adapter_of w self = Some ad →
  adapters w !! ad = Some o →
  invoke_all self cs w =
    (Ok (), {| tasks := tasks w;
               adapters := <[ad := foldl (λ o c, Adapter.received c o) o cs]> (adapters w);
               warnings := warnings w |}).
Proof.
  revert w o. induction cs as [|c cs IH]; intros w o Had Ho; simpl.
  - unfold mret, M_ret. rewrite insert_id by done. by destruct w.
  - rewrite bind_run, (invoke_live _ _ _ ad o) by done.
    erewrite IH; [| done | apply lookup_insert_eq].
    simpl. by rewrite insert_insert_eq.
Qed.

Lemma foldl_received_calls cs o :
  adapter_calls (foldl (λ o c, Adapter.received c o) o cs) = adapter_calls o ++ cs.
Proof.
  revert o. induction cs as [|c cs IH]; intros o; simpl.
  - by rewrite app_nil_r.
  - rewrite IH. simpl. by rewrite <-app_assoc.
Qed.

Lemma bind_adapter_none {B} (f : loc → M B) self w :
  adapter_of w self = None →
  ∃ e, (AdapterTask.adapter self ≫= f) w = (Raise e, w).
Proof.
  intros H. rewrite bind_run. unfold AdapterTask.adapter.
  unfold adapter_of in H. rewrite H. eauto.
Qed.

Ltac quiet := simpl; by rewrite app_nil_r.

Lemma init_warnings cls self a w :
  warnings (ImageEmbedder.__init__ cls self a w).2 =
  warnings w ++ match (ImageEmbedder.__init__ cls self a w).1 with
                | Ok _ => [ImageEmbedder.override_warning]
                | Raise _ => []
                end.
Proof.
  unfold ImageEmbedder.__init__.
  unfold AdapterTask.save_hyperparameters. rewrite bind_modify.
  step_lift as rb Erb; [|quiet]. step_lift as fb Efb; [|quiet].
  step_lift as rvb Ecb; [|quiet].
  step_lift as [vb vx] Eub; [|quiet]. cbv beta iota.
  step_lift as rs Ers; [|quiet]. step_lift as ms Ems; [|quiet].
  step_lift as rvs Ecs; [|quiet].
  step_lift as [[vl vh] vk] Eus; [|quiet]. cbv beta iota.
  step_lift as ae Eae; [|quiet]. step_lift as ac Eac; [|quiet].
  rewrite bind_run. unfold Adapter.from_task.
  destruct (adapter_class_init ac vl vb vh vk) as [st|?] eqn:Einit; [|quiet].
  unfold AdapterTask.__init__. rewrite bind_modify.
  step_lift as rt Ert; [|quiet]. step_lift as ft Eft; [|quiet].
  step_lift as rvt Ect; [|quiet].
  step_lift as [vt vc] Eut; [|quiet]. cbv beta iota.
  match goal with |- context [ (AdapterTask.adapter self ≫= _) ?w1 ] =>
    set (w' := w1) end.
  assert (warnings w' = warnings w) as <- by done.
  destruct (adapter_of w' self) as [ad|] eqn:Had.
  - unfold Adapter.set_state, warn.
    repeat (rewrite (bind_adapter _ self ad), bind_modify by done). done.
  - edestruct (bind_adapter_none (B:=unit)) as [e ->]; [done|]. quiet.
Qed.

Lemma construct_warnings cls a w :
  warnings (ImageEmbedder.construct cls a w).2 =
  warnings w ++ match (ImageEmbedder.construct cls a w).1 with
                | Ok _ => [ImageEmbedder.override_warning]
                | Raise _ => []
                end.
Proof.
  rewrite construct_run. cbv zeta.
  match goal with |- context [ImageEmbedder.__init__ cls ?s a ?w1] =>
    pose proof (init_warnings cls s a w1) as H;
    destruct (ImageEmbedder.__init__ cls s a w1) as [[[]|e'] w'] end; done.
Qed.

(** ** Outcomes of a construction *)

Lemma construct_step_raises cls a e w :
  step_raises cls a e → (ImageEmbedder.construct cls a w).1 = Raise e.
Proof.
  intros H. apply construct_init_raises. intros self w1.
  destruct H.
  - by eapply init_backbone_lookup_raises.
  - by eapply init_backbone_raises.
  - by eapply init_strategy_lookup_raises.
  - by eapply init_strategy_raises.
  - by eapply init_adapter_raises.
  - by eapply init_transform_lookup_raises.
  - by eapply init_transform_raises.
Qed.

Lemma construct_dichotomy cls a w :
  (∃ self c, resolves cls a c ∧
     ImageEmbedder.construct cls a w = (Ok self, constructed a c w)) ∨
  (∃ e, (ImageEmbedder.construct cls a w).1 = Raise e ∧ ¬ ∃ c, resolves cls a c).
Proof.
  destruct (ImageEmbedder.construct cls a w).1 as [self|e] eqn:Hrun.
  - left. apply construct_ok_inv in Hrun as (c & ? & _ & ?). eauto.
  - right. exists e. split; [done|]. intros [c Hc].
    rewrite (construct_resolved _ _ _ _ Hc) in Hrun. discriminate.
Qed.

(** ** A constructed task holds its adapter *)

Lemma constructed_adapter_of a c w :
  adapter_of (constructed a c w) (fresh (dom (tasks w))) = Some (fresh (dom (adapters w))).
Proof. unfold adapter_of, constructed. simpl. by rewrite lookup_insert_eq. Qed.

Lemma constructed_adapter_obj a c w :
  adapters (constructed a c w) !! fresh (dom (adapters w)) =
  Some (installed_adapter (fresh (dom (tasks w))) c).
Proof. unfold constructed. simpl. by rewrite lookup_insert_eq. Qed.

(** ** The scenario resolves *)

Lemma scenario_backbone_resolved cls a :
  backbones cls = AttrValue Scenario.backbone_registry →
  backbone a = "dummy" → backbone_kwargs a = None →
  backbone_resolved cls a (VObj "DummyBackbone" 0).
Proof.
  intros Hcls Hb Hk.
  exists Scenario.backbone_registry, Scenario.dummy_backbone,
    (VTuple [VObj "DummyBackbone" 0; VInt 512]), (VInt 512).
  rewrite Hb, Hk. repeat split; [exact Hcls | vm_compute; reflexivity ..].
Defined.

Lemma scenario_strategy_resolved a :
  training_strategy a = "noop" → training_strategy_kwargs a = None →
  strategy_resolved Scenario.cls a
    (VObj "IdentityLoss" 0) (VObj (head a) 0) (VTuple []) Scenario.noop_adapter.
Proof.
  intros Hs Hk.
  exists Scenario.strategy_registry,
    {| FlashRegistry.name := "noop"; FlashRegistry.fn := Scenario.noop_strategy;
       FlashRegistry.metadata := <["adapter" := MClass Scenario.noop_adapter]> ∅ |},
    (VTuple [VObj "IdentityLoss" 0; VObj (head a) 0; VTuple []]).
  rewrite Hs, Hk. repeat split; vm_compute; reflexivity.
Defined.

Lemma scenario_resolves : resolves Scenario.cls Scenario.args Scenario.components.
Proof.
  split; [|split; [|split]].
  - apply scenario_backbone_resolved; reflexivity.
  - apply (scenario_strategy_resolved Scenario.args); reflexivity.
  - reflexivity.
  - exists Scenario.transform_registry, Scenario.identity_transform,
      (VTuple [VObj "IdentityTransform" 0; VObj "default_collate" 0]).
    repeat split; vm_compute; reflexivity.
Defined.

Lemma scenario_bare_resolves :
  resolves Scenario.bare_cls Scenario.args Scenario.bare_components.
Proof.
  split; [|split; [|split]].
  - apply scenario_backbone_resolved; reflexivity.
  - eexists _, {| FlashRegistry.name := "noop"; FlashRegistry.fn := Scenario.noop_strategy;
                  FlashRegistry.metadata := <["adapter" := MClass Scenario.bare_adapter]> ∅ |},
      (VTuple [VObj "IdentityLoss" 0; VObj "identity_head" 0; VTuple []]).
    repeat split; vm_compute; reflexivity.
  - reflexivity.
  - exists Scenario.transform_registry, Scenario.identity_transform,
      (VTuple [VObj "IdentityTransform" 0; VObj "default_collate" 0]).
    repeat split; vm_compute; reflexivity.
Defined.

Lemma scenario_constructs :
  (ImageEmbedder.construct Scenario.cls Scenario.args Scenario.w0).1 = Ok 0.
Proof. vm_compute. reflexivity. Defined.

(** * The claims *)

(** C1 (the code departs from the claim).  The claim expects a construction
    that names registered keys and leaves every other parameter at its
    default to succeed.  It raises instead: [pretraining_transform_kwargs]
    keeps its default [None], and the call written with [**] on it is a
    [TypeError].  This holds although every key is registered and every
    factory answers: the backbone resolves, the strategy resolves, the
    adapter class accepts the components and the transform key is in its
    registry. *)
Theorem default_kwargs_construction_raises cls ts h pt b w vb vl vh vk ac st r f :
  backbone_resolved cls (defaults ts h pt b) vb →
  strategy_resolved cls (defaults ts h pt b) vl vh vk ac →
  adapter_class_init ac vl vb vh vk = Ok st →
  transforms cls = AttrValue r →
  FlashRegistry.get r pt = Ok f →
  (ImageEmbedder.construct cls (defaults ts h pt b) w).1 =
    Raise (mkExn TypeError "argument after ** must be a mapping, not NoneType").
Proof.
  intros Hb Hs Hinit Ht Hf. apply construct_init_raises. intros self w1.
  by eapply init_transform_raises.
Qed.

Lemma default_kwargs_construction_raises_witness :
  (ImageEmbedder.construct Scenario.cls
     (defaults "noop" "identity_head" "identity" "dummy") Scenario.w0).1 =
    Raise (mkExn TypeError "argument after ** must be a mapping, not NoneType").
Proof.
  apply (default_kwargs_construction_raises Scenario.cls
           "noop" "identity_head" "identity" "dummy" Scenario.w0
           (VObj "DummyBackbone" 0) (VObj "IdentityLoss" 0) (VObj "identity_head" 0)
           (VTuple []) Scenario.noop_adapter Scenario.user_states
           Scenario.transform_registry Scenario.identity_transform).
  - apply scenario_backbone_resolved; reflexivity.
  - apply (scenario_strategy_resolved (defaults "noop" "identity_head" "identity" "dummy"));
      reflexivity.
  - reflexivity.
  - reflexivity.
  - vm_compute. reflexivity.
Defined.

(** With the defaults no construction returns a task, whatever the
    registries hold. *)
Lemma defaults_never_construct cls ts h pt b w self :
  (ImageEmbedder.construct cls (defaults ts h pt b) w).1 ≠ Ok self.
Proof.
  intros (c & (_ & _ & _ & (r & f & v & _ & _ & Hcall & _)) & _)%construct_ok_inv.
  discriminate Hcall.
Qed.

(** C2.  A key that a registry does not list makes both forms of [get]
    raise one and the same exception, of the [LookupError] kind.  The
    construction that resolves this key in this registry then fails: with
    that exception when the key is the backbone's, and also when it is the
    strategy's or the transform's and the steps before the lookup answer; in
    every case no task is returned. *)
Theorem unknown_key_raises_lookup_error r key :
  key ∉ FlashRegistry.available_keys r →
  ∃ e, is_LookupError e = true ∧
    FlashRegistry.get r key = Raise e ∧
    FlashRegistry.get_with_metadata r key = Raise e ∧
    ∀ cls a w,
      (backbones cls = AttrValue r → backbone a = key →
       (ImageEmbedder.construct cls a w).1 = Raise e) ∧
      (training_strategies cls = AttrValue r → training_strategy a = key →
       (∃ e', (ImageEmbedder.construct cls a w).1 = Raise e') ∧
       (∀ vb, backbone_resolved cls a vb →
          (ImageEmbedder.construct cls a w).1 = Raise e)) ∧
      (transforms cls = AttrValue r → pretraining_transform a = key →
       (∃ e', (ImageEmbedder.construct cls a w).1 = Raise e') ∧
       (∀ vb vl vh vk ac st,
          backbone_resolved cls a vb →
          strategy_resolved cls a vl vh vk ac →
          adapter_class_init ac vl vb vh vk = Ok st →
          (ImageEmbedder.construct cls a w).1 = Raise e)).
Proof.
  intros Hkey.
  destruct (get_with_metadata_absent r key Hkey) as (e & He & Hl).
  assert (FlashRegistry.get r key = Raise e) as Hget.
  { unfold FlashRegistry.get. by rewrite He. }
  exists e. repeat split; try done.
  - intros Hr <-. apply construct_step_raises. by eapply backbone_lookup_raises.
  - destruct (construct_dichotomy cls a w) as [(self & c & Hc & _)|(e' & ? & _)]; [|eauto].
    destruct Hc as (_ & (rs & ms & rvs & Hrs & Hms & _) & _). congruence.
  - intros vb Hb. apply construct_step_raises.
    eapply strategy_lookup_raises; [done..|congruence].
  - destruct (construct_dichotomy cls a w) as [(self & c & Hc & _)|(e' & ? & _)]; [|eauto].
    destruct Hc as (_ & _ & _ & (rt & ft & rvt & Hrt & Hft & _)). congruence.
  - intros vb vl vh vk ac st Hb Hs Hinit. apply construct_step_raises.
    eapply transform_lookup_raises; [done..|congruence].
Qed.

Lemma unknown_key_raises_lookup_error_witness :
  ∃ e, is_LookupError e = true ∧
    (ImageEmbedder.construct Scenario.cls Scenario.unknown_args Scenario.w0).1 = Raise e.
Proof.
  destruct (unknown_key_raises_lookup_error Scenario.transform_registry "missing")
    as (e & Hl & _ & _ & Hrun).
  - apply (bool_decide_unpack _). vm_compute. exact I.
  - exists e. split; [exact Hl|].
    destruct (Hrun Scenario.cls Scenario.unknown_args Scenario.w0) as (_ & _ & Ht).
    destruct (Ht eq_refl eq_refl) as (_ & He).
    apply (He (VObj "DummyBackbone" 0) (VObj "IdentityLoss" 0) (VObj "identity_head" 0)
              (VTuple []) Scenario.noop_adapter Scenario.user_states).
    + apply scenario_backbone_resolved; reflexivity.
    + apply (scenario_strategy_resolved Scenario.unknown_args); reflexivity.
    + reflexivity.
Defined.

(** C3.  On a constructed task, after any callbacks [cs] it has already
    been sent, the adapter has received exactly [cs], and each of
    [on_train_start], [on_train_epoch_end] and [on_train_batch_end] is the
    call of the method of the same name on the task's adapter with the same
    arguments; the adapter receives that call once, after what it had
    received, and the task, the other adapters and the warnings are as
    before. *)
Theorem callbacks_forwarded_once cls a w0 self cs outputs batch batch_idx dataloader_idx :
  (ImageEmbedder.construct cls a w0).1 = Ok self →
  ∃ ad o,
    let w := (invoke_all self cs (ImageEmbedder.construct cls a w0).2).2 in
    adapter_of w self = Some ad ∧
    adapters w !! ad = Some o ∧
    adapter_calls o = cs ∧
    ImageEmbedder.on_train_start self w = Adapter.on_train_start ad w ∧
    ImageEmbedder.on_train_start self w = forwarded w ad o call_on_train_start ∧
    ImageEmbedder.on_train_epoch_end self w = Adapter.on_train_epoch_end ad w ∧
    ImageEmbedder.on_train_epoch_end self w = forwarded w ad o call_on_train_epoch_end ∧
    ImageEmbedder.on_train_batch_end self outputs batch batch_idx dataloader_idx w =
      Adapter.on_train_batch_end ad outputs batch batch_idx dataloader_idx w ∧
    ImageEmbedder.on_train_batch_end self outputs batch batch_idx dataloader_idx w =
      forwarded w ad o (call_on_train_batch_end outputs batch batch_idx dataloader_idx).
Proof.
  intros (c & _ & -> & Hrun)%construct_ok_inv. rewrite Hrun. simpl.
  pose proof (constructed_adapter_of a c w0) as Had.
  pose proof (constructed_adapter_obj a c w0) as Ho.
  rewrite (invoke_all_live _ cs _ _ _ Had Ho). simpl.
  eexists _, _. split; [exact Had|]. split; [apply lookup_insert_eq|].
  split; [by rewrite foldl_received_calls|].
  repeat split.
  - apply (bind_adapter Adapter.on_train_start). exact Had.
  - apply (invoke_live _ call_on_train_start); [exact Had | apply lookup_insert_eq].
  - apply (bind_adapter Adapter.on_train_epoch_end). exact Had.
  - apply (invoke_live _ call_on_train_epoch_end); [exact Had | apply lookup_insert_eq].
  - apply (bind_adapter
             (λ ad, Adapter.on_train_batch_end ad outputs batch batch_idx dataloader_idx)).
    exact Had.
  - apply (invoke_live _ (call_on_train_batch_end outputs batch batch_idx dataloader_idx));
      [exact Had | apply lookup_insert_eq].
Qed.

Lemma callbacks_forwarded_once_witness :
  let w := (ImageEmbedder.construct Scenario.cls Scenario.args Scenario.w0).2 in
  ∃ o, adapters w !! 0 = Some o ∧
    adapter_calls o = [] ∧
    ImageEmbedder.on_train_batch_end 0 (VObj "Tensor" 1) (VObj "Batch" 2) (VInt 3) (VInt 0) w =
      forwarded w 0 o
        (call_on_train_batch_end (VObj "Tensor" 1) (VObj "Batch" 2) (VInt 3) (VInt 0)).
Proof.
  destruct (callbacks_forwarded_once Scenario.cls Scenario.args Scenario.w0 0 []
              (VObj "Tensor" 1) (VObj "Batch" 2) (VInt 3) (VInt 0) scenario_constructs)
    as (ad & o & Had & Ho & Hcalls & _ & _ & _ & _ & _ & Hbatch).
  assert (ad = 0) as -> by (vm_compute in Had; congruence).
  exists o. split; [exact Ho|]. split; [exact Hcalls | exact Hbatch].
Defined.

(** C4.  After a construction that returns a task, the adapter of that
    task holds, under [CollateFn], the collate function the transform
    factory returned; under [ToTensorTransform], the returned transform
    applied to the input key; under [PostTensorTransform] and
    [PreTensorTransform], a state that holds [None].  This is so whatever
    named states the adapter started with, and every state under another
    name is the one it started with. *)
Theorem constructor_installs_states cls a w self :
  (ImageEmbedder.construct cls a w).1 = Ok self →
  ∃ c o,
    resolves cls a c ∧
    adapter_obj_of (ImageEmbedder.construct cls a w).2 self = Some o ∧
    adapter_state o !! "CollateFn" = Some (CollateFn (c_collate_fn c)) ∧
    adapter_state o !! "ToTensorTransform" =
      Some (ToTensorTransform (ApplyToKeys DefaultDataKeys_INPUT (c_transform c))) ∧
    adapter_state o !! "PostTensorTransform" = Some (PostTensorTransform VNone) ∧
    adapter_state o !! "PreTensorTransform" = Some (PreTensorTransform VNone) ∧
    ∀ k, k ∉ ["CollateFn"; "ToTensorTransform"; "PostTensorTransform"; "PreTensorTransform"] →
         adapter_state o !! k = c_initial_state c !! k.
Proof.
  intros (c & Hc & -> & Hrun)%construct_ok_inv. rewrite Hrun. simpl.
  exists c, (installed_adapter (fresh (dom (tasks w))) c).
  split; [done|]. split.
  { unfold adapter_obj_of. rewrite constructed_adapter_of.
    exact (constructed_adapter_obj a c w). }
  unfold installed_adapter. simpl.
  repeat split; [by simplify_map_eq..|].
  intros k Hk. rewrite !not_elem_of_cons in Hk. destruct Hk as (? & ? & ? & ? & _).
  by rewrite !lookup_insert_ne.
Qed.

Lemma constructor_installs_states_witness :
  ∃ o, adapter_obj_of (ImageEmbedder.construct Scenario.cls Scenario.args Scenario.w0).2 0
         = Some o ∧
    Scenario.user_states !! "PreTensorTransform" = Some (PreTensorTransform (VObj "UserCrop" 0)) ∧
    adapter_state o !! "PreTensorTransform" = Some (PreTensorTransform VNone) ∧
    adapter_state o !! "CollateFn" = Some (CollateFn (VObj "default_collate" 0)).
Proof.
  destruct (constructor_installs_states Scenario.cls Scenario.args Scenario.w0 0
              scenario_constructs)
    as (c & o & Hc & Ho & Hcollate & _ & _ & Hpre & _).
  exists o. split; [exact Ho|]. split; [reflexivity|]. split; [exact Hpre|].
  vm_compute in Ho. injection Ho as <-. vm_compute. reflexivity.
Defined.

(** C5, as stated, fails: "every construction performed with a custom
    transform emits the override warning exactly once" is false of a
    construction that raises.  The warning is the last statement of the
    constructor; here the transform factory raises after the adapter, with
    the transforms the user configured, has been made, and no warning is
    emitted. *)
Lemma override_warning_every_construction_counterexample :
  is_Some (Scenario.user_states !! "PreTensorTransform") ∧
  (ImageEmbedder.construct Scenario.cls Scenario.broken_args Scenario.w0).1 =
    Raise (mkExn (OtherError "RuntimeError") "size must be positive") ∧
  warnings (ImageEmbedder.construct Scenario.cls Scenario.broken_args Scenario.w0).2 = [] ∧
  ¬ (∀ cls a w,
       warnings (ImageEmbedder.construct cls a w).2 =
         warnings w ++ [ImageEmbedder.override_warning]).
Proof.
  split; [eexists; reflexivity|].
  split; [vm_compute; reflexivity|].
  split; [vm_compute; reflexivity|].
  intros H. specialize (H Scenario.cls Scenario.broken_args Scenario.w0).
  vm_compute in H. discriminate H.
Qed.

(** C5, as amended.  A construction that returns a task emits the override
    warning exactly once: the warnings after it are the warnings before it
    followed by that one message.  The constructor has no parameter for a
    transform of the user, so this holds for every such construction, those
    where a transform was configured beforehand included. *)
Theorem override_warning_exactly_once cls a w self :
  (ImageEmbedder.construct cls a w).1 = Ok self →
  warnings (ImageEmbedder.construct cls a w).2 =
    warnings w ++ [ImageEmbedder.override_warning].
Proof. intros H. by rewrite construct_warnings, H. Qed.

Lemma override_warning_exactly_once_witness :
  is_Some (Scenario.user_states !! "PreTensorTransform") ∧
  warnings (ImageEmbedder.construct Scenario.cls Scenario.args Scenario.w0).2 =
    [ImageEmbedder.override_warning].
Proof.
  split; [eexists; reflexivity|].
  exact (override_warning_exactly_once Scenario.cls Scenario.args Scenario.w0 0
           scenario_constructs).
Defined.

(** C6.  A construction that returns a task makes exactly one adapter: the
    adapters after it are those before it and one new one.  The new adapter
    is of the class that the metadata of the strategy name under "adapter",
    it is bound to the task and to the loss function, backbone, head and
    hooks that the factories returned, and it is the adapter of the task.
    Callbacks, however many, return normally, leave it the adapter of the
    task and make no other adapter. *)
Theorem adapter_instantiated_once cls a w self :
  (ImageEmbedder.construct cls a w).1 = Ok self →
  ∃ c ad o,
    resolves cls a c ∧
    (ad ∉ dom (adapters w)) ∧
    adapters (ImageEmbedder.construct cls a w).2 = <[ad := o]> (adapters w) ∧
    adapter_class o = adapter_class_name (c_adapter_class c) ∧
    adapter_task o = self ∧
    adapter_loss_fn o = c_loss_fn c ∧
    adapter_backbone o = c_backbone c ∧
    adapter_head o = c_head c ∧
    adapter_hooks o = c_hooks c ∧
    adapter_of (ImageEmbedder.construct cls a w).2 self = Some ad ∧
    ∀ cs,
      let after := invoke_all self cs (ImageEmbedder.construct cls a w).2 in
      (after.1 = Ok () ∧
       adapter_of after.2 self = Some ad ∧
       dom (adapters after.2) = {[ad]} ∪ dom (adapters w)).
Proof.
  intros (c & Hc & -> & Hrun)%construct_ok_inv. rewrite Hrun. simpl.
  exists c, (fresh (dom (adapters w))), (installed_adapter (fresh (dom (tasks w))) c).
  split; [done|]. split; [apply is_fresh|].
  repeat (split; [done|]).
  split; [exact (constructed_adapter_of a c w)|].
  intros cs.
  rewrite (invoke_all_live _ cs _ _ _ (constructed_adapter_of a c w)
             (constructed_adapter_obj a c w)).
  simpl. split; [done|]. split; [exact (constructed_adapter_of a c w)|].
  by rewrite insert_insert_eq, dom_insert_L.
Qed.

Lemma adapter_instantiated_once_witness :
  ∃ o, adapters (ImageEmbedder.construct Scenario.cls Scenario.args Scenario.w0).2
         = <[0 := o]> ∅ ∧
       adapter_class o = "NoopAdapter" ∧
       adapter_backbone o = VObj "DummyBackbone" 0 ∧
       adapter_head o = VObj "identity_head" 0.
Proof.
  destruct (adapter_instantiated_once Scenario.cls Scenario.args Scenario.w0 0
              scenario_constructs)
    as (c & ad & o & _ & _ & Hads & _ & _ & _ & _ & _ & _ & Had & _).
  assert (ad = 0) as -> by (vm_compute in Had; congruence).
  exists o. split; [exact Hads|].
  assert (adapters (ImageEmbedder.construct Scenario.cls Scenario.args Scenario.w0).2 !! 0
          = Some o) as Ho by (rewrite Hads; apply lookup_insert_eq).
  vm_compute in Ho. injection Ho as <-. repeat split.
Defined.

(** C7.  Construction is all or nothing.  When a lookup or a factory
    raises [e], the steps before it having answered, the construction
    raises that same [e] and returns no task; a construction that raises
    is one where some step did not answer; and a construction that returns
    a task is one where every step answered and the whole store of a
    finished construction is in place. *)
Theorem construction_all_or_nothing cls a w :
  (∀ e, step_raises cls a e → (ImageEmbedder.construct cls a w).1 = Raise e) ∧
  (∀ e, (ImageEmbedder.construct cls a w).1 = Raise e → ¬ ∃ c, resolves cls a c) ∧
  (∀ self, (ImageEmbedder.construct cls a w).1 = Ok self →
     ∃ c, resolves cls a c ∧ (ImageEmbedder.construct cls a w).2 = constructed a c w).
Proof.
  split; [|split].
  - intros e He. by apply construct_step_raises.
  - intros e He [c Hc]. rewrite (construct_resolved _ _ _ _ Hc) in He. discriminate.
  - intros self (c & Hc & _ & Hrun)%construct_ok_inv. exists c. by rewrite Hrun.
Qed.

Lemma construction_all_or_nothing_witness :
  (ImageEmbedder.construct Scenario.cls Scenario.broken_args Scenario.w0).1 =
    Raise (mkExn (OtherError "RuntimeError") "size must be positive").
Proof.
  apply (proj1 (construction_all_or_nothing Scenario.cls Scenario.broken_args Scenario.w0)).
  apply (transform_factory_raises _ _ _
           (VObj "DummyBackbone" 0) (VObj "IdentityLoss" 0) (VObj "identity_head" 0)
           (VTuple []) Scenario.noop_adapter Scenario.user_states
           Scenario.transform_registry Scenario.broken_transform).
  - apply scenario_backbone_resolved; reflexivity.
  - apply (scenario_strategy_resolved Scenario.broken_args); reflexivity.
  - reflexivity.
  - reflexivity.
  - vm_compute. reflexivity.
  - vm_compute. reflexivity.
Defined.

(** C8.  For a registry filled by any sequence of [register] calls, the
    listing of its keys, which [available_training_strategies] returns for
    the registry of strategies, holds exactly the keys that were registered,
    each once, in the order in which they were first registered. *)
Theorem available_keys_are_registered_keys calls n cls w :
  training_strategies cls =
    AttrValue (FlashRegistry.registered calls (FlashRegistry.new n)) →
  ∃ keys,
    FlashRegistry.available_keys (FlashRegistry.registered calls (FlashRegistry.new n))
      = keys ∧
    ImageEmbedder.available_training_strategies cls w = (Ok keys, w) ∧
    (∀ k, k ∈ keys ↔ k ∈ calls.*1.*1) ∧
    NoDup keys ∧
    keys = insertion_order (calls.*1.*1).
Proof.
  intros Hcls. eexists. split; [reflexivity|].
  rewrite available_keys_registered. simpl. fold (insertion_order (calls.*1.*1)).
  split; [|split; [|split]].
  - unfold ImageEmbedder.available_training_strategies. rewrite Hcls. simpl.
    by rewrite available_keys_registered.
  - intros k. unfold insertion_order. rewrite elem_of_foldl_note_key, elem_of_nil. tauto.
  - apply foldl_note_key_NoDup, NoDup_nil_2.
  - done.
Qed.

Lemma available_keys_are_registered_keys_witness :
  ImageEmbedder.available_training_strategies Scenario.listing_cls Scenario.w0 =
    (Ok ["identity"; "broken"], Scenario.w0).
Proof.
  destruct (available_keys_are_registered_keys Scenario.transform_calls
              "embedder_transforms" Scenario.listing_cls Scenario.w0 eq_refl)
    as (keys & Hkeys & Hrun & _).
  rewrite Hrun, <-Hkeys. vm_compute. reflexivity.
Defined.

(** C9.  The override warning follows the outcome of the construction and
    nothing else: a construction that returns a task has emitted it once, a
    construction that raises has not emitted it.  In particular it is
    emitted when the adapter started with no named state at all, so that
    nothing of the user is overridden. *)
Theorem override_warning_unconditional cls a w :
  warnings (ImageEmbedder.construct cls a w).2 =
    warnings w ++ match (ImageEmbedder.construct cls a w).1 with
                  | Ok _ => [ImageEmbedder.override_warning]
                  | Raise _ => []
                  end ∧
  ∀ c, resolves cls a c → c_initial_state c = ∅ →
       warnings (ImageEmbedder.construct cls a w).2 =
         warnings w ++ [ImageEmbedder.override_warning].
Proof.
  split; [apply construct_warnings|].
  intros c Hc _. by rewrite (construct_resolved _ _ _ _ Hc).
Qed.

Lemma override_warning_unconditional_witness :
  warnings (ImageEmbedder.construct Scenario.bare_cls Scenario.args Scenario.w0).2 =
    [ImageEmbedder.override_warning].
Proof.
  exact (proj2 (override_warning_unconditional Scenario.bare_cls Scenario.args Scenario.w0)
           Scenario.bare_components scenario_bare_resolves eq_refl).
Defined.

(** C10.  [available_training_strategies] returns normally for every class
    and leaves the store as it was; for a class without the attribute
    [training_strategies], or with the attribute set to [None], it returns
    the empty list. *)
Theorem available_training_strategies_never_raises cls w :
  ∃ keys,
    ImageEmbedder.available_training_strategies cls w = (Ok keys, w) ∧
    keys = match training_strategies cls with
           | AttrMissing | AttrNone => []
           | AttrValue r => FlashRegistry.available_keys r
           end.
Proof.
  unfold ImageEmbedder.available_training_strategies.
  destruct (training_strategies cls); simpl; eauto.
Qed.

Example no_strategies_listing :
  ImageEmbedder.available_training_strategies Scenario.no_strategies_cls Scenario.w0 =
    (Ok [], Scenario.w0).
Proof. reflexivity. Qed.

(** * Further properties of the constructor and the callbacks *)

(** ** The store of a construction that raises *)

Lemma backbone_resolved_agree cls a vb vb' :
  backbone_resolved cls a vb → backbone_resolved cls a vb' → vb = vb'.
Proof.
  intros (r & f & v & x & Hr & Hf & Hc & Hu) (r' & f' & v' & x' & Hr' & Hf' & Hc' & Hu').
  assert (v = v') as <- by congruence. congruence.
Qed.

Lemma strategy_resolved_agree cls a vl vh vk ac vl' vh' vk' ac' :
  strategy_resolved cls a vl vh vk ac → strategy_resolved cls a vl' vh' vk' ac' →
  vl = vl' ∧ vh = vh' ∧ vk = vk' ∧ ac = ac'.
Proof.
  intros (r & m & v & Hr & Hm & Hc & Hu & Ha) (r' & m' & v' & Hr' & Hm' & Hc' & Hu' & Ha').
  assert (m = m') as <- by congruence.
  assert (v = v') as <- by congruence.
  repeat split; congruence.
Qed.

Lemma construct_raise_store cls a w e :
  (ImageEmbedder.construct cls a w).1 = Raise e →
  (ImageEmbedder.construct cls a w).2 = hparams_only a w ∨
  ∃ vb vl vh vk ac st,
    backbone_resolved cls a vb ∧
    strategy_resolved cls a vl vh vk ac ∧
    adapter_class_init ac vl vb vh vk = Ok st ∧
    (ImageEmbedder.construct cls a w).2 = half_built a ac vl vb vh vk st w.
Proof.
  rewrite construct_run. cbv zeta.
  set (self := fresh (dom (tasks w))).
  set (w0 := set_tasks _ w).
  assert (set_tasks (alter (AdapterTask.with_hparams a) self) w0 = hparams_only a w)
    as Hearly.
  { unfold w0, set_tasks, hparams_only. simpl. f_equal.
    by rewrite alter_insert_eq. }
  destruct (ImageEmbedder.__init__ cls self a w0) as [[[]|e'] w'] eqn:Hinit;
    simpl; [done|].
  intros [= ->].
  assert ((ImageEmbedder.__init__ cls self a w0).1 = Raise e) as Hraise
    by (by rewrite Hinit).
  assert (w' = (ImageEmbedder.__init__ cls self a w0).2) as ->
    by (by rewrite Hinit).
  clear Hinit. revert Hraise.
  unfold ImageEmbedder.__init__.
  unfold AdapterTask.save_hyperparameters. rewrite bind_modify, Hearly.
  step_lift as rb Erb; [|by left]. step_lift as fb Efb; [|by left].
  step_lift as rvb Ecb; [|by left].
  step_lift as [vb vx] Eub; [|by left]. cbv beta iota.
  step_lift as rs Ers; [|by left]. step_lift as ms Ems; [|by left].
  step_lift as rvs Ecs; [|by left].
  step_lift as [[vl vh] vk] Eus; [|by left]. cbv beta iota.
  step_lift as ae Eae; [|by left]. step_lift as ac Eac; [|by left].
  rewrite bind_run. unfold Adapter.from_task.
  destruct (adapter_class_init ac vl vb vh vk) as [st|?] eqn:Einit; [|by left].
  unfold AdapterTask.__init__. rewrite bind_modify.
  apply registry_of_ok in Erb, Ers.
  apply getitem_ok in Eae. apply adapter_class_of_ok in Eac. subst ae.
  match goal with |- context [ (lift _ ≫= _) ?w1 ] => set (w' := w1) end.
  assert (w' = half_built a ac vl vb vh vk st w) as Hw'.
  { unfold w', half_built, hparams_only, set_tasks, set_adapters. simpl. f_equal.
    by rewrite alter_insert_eq. }
  assert (adapter_of w' self = Some (fresh (dom (adapters w)))) as Had.
  { rewrite Hw'. unfold adapter_of, half_built. simpl. by rewrite lookup_insert_eq. }
  intros Hraise. right. exists vb, vl, vh, vk, ac, st.
  split; [by exists rb, fb, rvb, vx|]. split; [by exists rs, ms, rvs|]. split; [done|].
  rewrite <-Hw'. revert Hraise.
  step_lift as rt Ert; [|done]. step_lift as ft Eft; [|done].
  step_lift as rvt Ect; [|done].
  step_lift as [vt vc] Eut; [|done]. cbv beta iota.
  unfold Adapter.set_state, warn.
  repeat (rewrite (bind_adapter _ self (fresh (dom (adapters w)))), bind_modify by done).
  simpl. discriminate.
Qed.

Lemma fresh_task_None (w : World) : tasks w !! fresh (dom (tasks w)) = None.
Proof. apply not_elem_of_dom, is_fresh. Qed.

Lemma fresh_adapter_None (w : World) : adapters w !! fresh (dom (adapters w)) = None.
Proof. apply not_elem_of_dom, is_fresh. Qed.

(** X1.  Without VISSL the three registries of the module are new and
    empty, so no construction returns a task: whatever the arguments, the
    lookup of the backbone raises [KeyError], the only trace in the store is
    the new task with its saved arguments, no adapter is made and no warning
    emitted; and [available_training_strategies] lists nothing. *)
Theorem without_vissl_nothing_constructs vissl a w :
  ImageEmbedder.construct (ImageEmbedder_class false vissl) a w =
    (Raise (mkExn KeyError ("Key: " +:+ backbone a +:+ " is not in backbones")),
     hparams_only a w) ∧
  ImageEmbedder.available_training_strategies (ImageEmbedder_class false vissl) w =
    (Ok [], w).
Proof.
  split; [|reflexivity].
  assert ((ImageEmbedder.construct (ImageEmbedder_class false vissl) a w).1 =
          Raise (mkExn KeyError ("Key: " +:+ backbone a +:+ " is not in backbones")))
    as Hraise.
  { apply construct_step_raises.
    by apply (backbone_lookup_raises _ _ _ (FlashRegistry.new "backbones")). }
  destruct (construct_raise_store _ _ _ _ Hraise)
    as [Hw|(vb & _ & _ & _ & _ & _ & (r & f & v & x & Hr & Hf & _) & _)].
  - rewrite <-Hraise, <-Hw. by destruct (ImageEmbedder.construct _ _ _).
  - simpl in Hr. injection Hr as <-. discriminate Hf.
Qed.

(** X2.  A construction, whether it returns or raises, leaves every task
    and every adapter that was in the store as it was, adds exactly one task
    and at most one adapter, and only appends to the warnings. *)
Theorem construction_preserves_store cls a w :
  tasks w ⊆ tasks (ImageEmbedder.construct cls a w).2 ∧
  adapters w ⊆ adapters (ImageEmbedder.construct cls a w).2 ∧
  size (tasks (ImageEmbedder.construct cls a w).2) = S (size (tasks w)) ∧
  size (adapters (ImageEmbedder.construct cls a w).2) ≤ S (size (adapters w)) ∧
  warnings w `prefix_of` warnings (ImageEmbedder.construct cls a w).2.
Proof.
  pose proof (fresh_task_None w) as Ht. pose proof (fresh_adapter_None w) as Ha.
  assert (warnings w `prefix_of` warnings (ImageEmbedder.construct cls a w).2) as Hwarn.
  { rewrite construct_warnings. by apply prefix_app_r. }
  destruct (ImageEmbedder.construct cls a w).1 as [self|e] eqn:Hrun.
  - apply construct_ok_inv in Hrun as (c & _ & _ & Hrun). rewrite Hrun in Hwarn |- *.
    simpl. repeat split; [by apply insert_subseteq..| | |done].
    + by rewrite map_size_insert_None.
    + by rewrite map_size_insert_None.
  - destruct (construct_raise_store _ _ _ _ Hrun) as [Hw|(vb & vl & vh & vk & ac & st & _ & _ & _ & Hw)];
      rewrite Hw in Hwarn |- *; simpl;
      (repeat split; [by apply insert_subseteq | try done; by apply insert_subseteq
                      | by rewrite map_size_insert_None | | done]).
    + lia.
    + by rewrite map_size_insert_None.
Qed.

(** X3.  A construction that raises before an adapter class has accepted
    the components makes no adapter: the store differs from the one before
    only by the new task, which holds the saved arguments and no adapter. *)
Theorem failure_before_adapter_makes_none cls a w e :
  (ImageEmbedder.construct cls a w).1 = Raise e →
  (∀ vb vl vh vk ac st,
     backbone_resolved cls a vb →
     strategy_resolved cls a vl vh vk ac →
     adapter_class_init ac vl vb vh vk ≠ Ok st) →
  (ImageEmbedder.construct cls a w).2 = hparams_only a w.
Proof.
  intros Hraise Hnone.
  destruct (construct_raise_store _ _ _ _ Hraise)
    as [Hw|(vb & vl & vh & vk & ac & st & Hb & Hs & Hinit & _)]; [done|].
  by destruct (Hnone vb vl vh vk ac st Hb Hs).
Qed.

Lemma failure_before_adapter_makes_none_witness :
  adapters (ImageEmbedder.construct Scenario.cls Fixtures.resnet_args Scenario.w0).2 = ∅ ∧
  adapter_of (ImageEmbedder.construct Scenario.cls Fixtures.resnet_args Scenario.w0).2 0
    = None.
Proof.
  rewrite (failure_before_adapter_makes_none Scenario.cls Fixtures.resnet_args Scenario.w0
             (mkExn KeyError "Key: resnet is not in backbones")).
  - split; reflexivity.
  - vm_compute. reflexivity.
  - intros vb vl vh vk ac st (r & f & v & x & Hr & Hf & _) _ _.
    injection Hr as <-. vm_compute in Hf. discriminate Hf.
Defined.

Lemma construct_raise_after_adapter cls a w e vb vl vh vk ac st :
  backbone_resolved cls a vb →
  strategy_resolved cls a vl vh vk ac →
  adapter_class_init ac vl vb vh vk = Ok st →
  (ImageEmbedder.construct cls a w).1 = Raise e →
  (ImageEmbedder.construct cls a w).2 = half_built a ac vl vb vh vk st w.
Proof.
  intros Hb Hs Hinit Hraise.
  destruct (construct_raise_store _ _ _ _ Hraise)
    as [Hw|(vb' & vl' & vh' & vk' & ac' & st' & Hb' & Hs' & Hinit' & Hw)].
  - exfalso.
    assert (adapters (ImageEmbedder.construct cls a w).2 = adapters w) as Hsame
      by (by rewrite Hw).
    revert Hsame Hraise. rewrite construct_run. cbv zeta.
    set (self := fresh (dom (tasks w))). set (w0 := set_tasks _ w).
    destruct Hb as (rb & fb & rvb & vx & ? & ? & ? & ?). destruct Hs as (rs & ms & rvs & ? & ? & ? & ? & ?).
    start_init. use_resolved. use_adapter_class.
    rewrite bind_run. unfold Adapter.from_task. rewrite Hinit.
    unfold AdapterTask.__init__. rewrite bind_modify.
    match goal with |- context [ (lift _ ≫= _) ?w1 ] => set (w' := w1) end.
    assert (adapter_of w' self = Some (fresh (dom (adapters w)))) as Had.
    { unfold adapter_of, w'. simpl. by rewrite !lookup_alter_eq, lookup_insert_eq. }
    assert (adapters w' !! fresh (dom (adapters w)) ≠ None) as Hin.
    { unfold w'. simpl. by rewrite lookup_insert_eq. }
    pose proof (fresh_adapter_None w) as Hnone.
    assert (adapters w' ≠ adapters w) as Hne.
    { intros Hsame. apply Hin. by rewrite Hsame. }
    step_lift as rt Ert; [|by intros Hsame _].
    step_lift as ft Eft; [|by intros Hsame _].
    step_lift as rvt Ect; [|by intros Hsame _].
    step_lift as [vt vc] Eut; [|by intros Hsame _]. cbv beta iota.
    unfold Adapter.set_state, warn.
    repeat (rewrite (bind_adapter _ self (fresh (dom (adapters w)))), bind_modify by done).
    simpl. discriminate.
  - pose proof (backbone_resolved_agree _ _ _ _ Hb Hb') as <-.
    destruct (strategy_resolved_agree _ _ _ _ _ _ _ _ _ _ Hs Hs') as (<- & <- & <- & <-).
    rewrite Hinit in Hinit'. by injection Hinit' as <-.
Qed.

(** X4.  A construction that raises after the adapter class has accepted
    the components (at the lookup, the call or the unpacking of the
    transform) has already made the adapter and installed it on the new
    task: the adapter is bound to the components and holds the states it
    started with, none of the four states has been set, and no warning has
    been emitted. *)
Theorem failure_after_adapter_leaves_it_unset cls a w e vb vl vh vk ac st :
  backbone_resolved cls a vb →
  strategy_resolved cls a vl vh vk ac →
  adapter_class_init ac vl vb vh vk = Ok st →
  (ImageEmbedder.construct cls a w).1 = Raise e →
  (ImageEmbedder.construct cls a w).2 = half_built a ac vl vb vh vk st w.
Proof. apply construct_raise_after_adapter. Qed.

Lemma failure_after_adapter_leaves_it_unset_witness :
  (ImageEmbedder.construct Scenario.cls Scenario.default_args Scenario.w0).2 =
    half_built Scenario.default_args Scenario.noop_adapter
      (VObj "IdentityLoss" 0) (VObj "DummyBackbone" 0) (VObj "identity_head" 0)
      (VTuple []) Scenario.user_states Scenario.w0.
Proof.
  apply (failure_after_adapter_leaves_it_unset Scenario.cls Scenario.default_args
           Scenario.w0
           (mkExn TypeError "argument after ** must be a mapping, not NoneType")).
  - apply scenario_backbone_resolved; reflexivity.
  - apply (scenario_strategy_resolved Scenario.default_args); reflexivity.
  - reflexivity.
  - vm_compute. reflexivity.
Defined.

Lemma construct_raise_no_backbone cls a w e :
  (ImageEmbedder.construct cls a w).1 = Raise e →
  (∀ vb, ¬ backbone_resolved cls a vb) →
  ImageEmbedder.construct cls a w = (Raise e, hparams_only a w).
Proof.
  intros Hraise Hnone.
  destruct (construct_raise_store _ _ _ _ Hraise) as [Hw|(vb & _ & _ & _ & _ & _ & Hb & _)].
  - rewrite <-Hraise, <-Hw. by destruct (ImageEmbedder.construct _ _ _).
  - by destruct (Hnone vb).
Qed.

Lemma construct_raise_no_strategy cls a w e :
  (ImageEmbedder.construct cls a w).1 = Raise e →
  (∀ vl vh vk ac, ¬ strategy_resolved cls a vl vh vk ac) →
  ImageEmbedder.construct cls a w = (Raise e, hparams_only a w).
Proof.
  intros Hraise Hnone.
  destruct (construct_raise_store _ _ _ _ Hraise)
    as [Hw|(vb & vl & vh & vk & ac & _ & _ & Hs & _)].
  - rewrite <-Hraise, <-Hw. by destruct (ImageEmbedder.construct _ _ _).
  - by destruct (Hnone vl vh vk ac).
Qed.

(** X5.  A [backbone_kwargs] that holds the key "pretrained" makes the
    construction raise [TypeError] when the backbone factory is called,
    since [pretrained] is passed by name as well; the factory registered
    under the key has no say in it, and no adapter is made. *)
Theorem pretrained_in_backbone_kwargs_raises cls a w r f kw v :
  backbones cls = AttrValue r →
  FlashRegistry.get r (backbone a) = Ok f →
  backbone_kwargs a = Some kw →
  kw !! "pretrained" = Some v →
  ImageEmbedder.construct cls a w =
    (Raise (mkExn TypeError "got multiple values for keyword argument pretrained"),
     hparams_only a w).
Proof.
  intros Hr Hf Hkw Hv.
  assert (call f [("pretrained", VBool (pretrained a))]
            (Some (default ∅ (backbone_kwargs a))) =
          Raise (mkExn TypeError "got multiple values for keyword argument pretrained"))
    as Hcall.
  { rewrite Hkw. unfold call. simpl. rewrite Hv.
    by rewrite bool_decide_eq_true_2 by eauto. }
  apply construct_raise_no_backbone.
  - apply construct_step_raises. by eapply backbone_factory_raises.
  - intros vb (r' & f' & v' & x & Hr' & Hf' & Hcall' & _). congruence.
Qed.

Lemma pretrained_in_backbone_kwargs_raises_witness :
  (ImageEmbedder.construct Scenario.cls Fixtures.pretrained_twice_args Scenario.w0).1 =
    Raise (mkExn TypeError "got multiple values for keyword argument pretrained").
Proof.
  rewrite (pretrained_in_backbone_kwargs_raises Scenario.cls Fixtures.pretrained_twice_args
             Scenario.w0 Scenario.backbone_registry Scenario.dummy_backbone
             (<["pretrained" := VBool true]> ∅) (VBool true));
    [reflexivity | reflexivity | vm_compute; reflexivity | reflexivity
     | vm_compute; reflexivity].
Defined.

(** X6.  A [training_strategy_kwargs] that holds the key "head" makes the
    construction raise [TypeError] when the strategy factory is called,
    since [head] is passed by name as well; no adapter is made. *)
Theorem head_in_strategy_kwargs_raises cls a w vb r m kw v :
  backbone_resolved cls a vb →
  training_strategies cls = AttrValue r →
  FlashRegistry.get_with_metadata r (training_strategy a) = Ok m →
  training_strategy_kwargs a = Some kw →
  kw !! "head" = Some v →
  ImageEmbedder.construct cls a w =
    (Raise (mkExn TypeError "got multiple values for keyword argument head"),
     hparams_only a w).
Proof.
  intros Hb Hr Hm Hkw Hv.
  assert (call (FlashRegistry.fn m) [("head", VStr (head a))]
            (Some (default ∅ (training_strategy_kwargs a))) =
          Raise (mkExn TypeError "got multiple values for keyword argument head"))
    as Hcall.
  { rewrite Hkw. unfold call. simpl. rewrite Hv.
    by rewrite bool_decide_eq_true_2 by eauto. }
  apply construct_raise_no_strategy.
  - apply construct_step_raises. by eapply strategy_factory_raises.
  - intros vl vh vk ac (r' & m' & v' & Hr' & Hm' & Hcall' & _). congruence.
Qed.

Lemma head_in_strategy_kwargs_raises_witness :
  (ImageEmbedder.construct Scenario.cls Fixtures.head_twice_args Scenario.w0).1 =
    Raise (mkExn TypeError "got multiple values for keyword argument head").
Proof.
  rewrite (head_in_strategy_kwargs_raises Scenario.cls Fixtures.head_twice_args
             Scenario.w0 (VObj "DummyBackbone" 0) Scenario.strategy_registry
             {| FlashRegistry.name := "noop"; FlashRegistry.fn := Scenario.noop_strategy;
                FlashRegistry.metadata := <["adapter" := MClass Scenario.noop_adapter]> ∅ |}
             (<["head" := VStr "other_head"]> ∅) (VStr "other_head")).
  - reflexivity.
  - apply scenario_backbone_resolved; reflexivity.
  - reflexivity.
  - vm_compute. reflexivity.
  - reflexivity.
  - vm_compute. reflexivity.
Defined.

(** ** Results that do not unpack *)

Example unpack2_of_two_characters : unpack2 (VStr "ab") = Ok (VStr "a", VStr "b").
Proof. reflexivity. Qed.

Example unpack2_of_three_characters :
  unpack2 (VStr "abc") = Raise (mkExn ValueError "too many values to unpack (expected 2)").
Proof. reflexivity. Qed.

Example unpack3_of_a_list :
  unpack3 (VList [VInt 1; VInt 2; VInt 3]) = Ok (VInt 1, VInt 2, VInt 3).
Proof. reflexivity. Qed.

Lemma iterate_raises_TypeError v e : iterate v = Raise e → exn_class e = TypeError.
Proof. destruct v; simpl; intros; by simplify_eq. Qed.

Lemma unpack2_fails v :
  (∀ x y, iterate v ≠ Ok [x; y]) →
  ∃ e, unpack2 v = Raise e ∧
       exn_class e = match iterate v with Ok _ => ValueError | Raise _ => TypeError end.
Proof.
  intros Hv. unfold unpack2.
  destruct (iterate v) as [[|x [|y [|z l]]]|e] eqn:Hit; eauto.
  - by destruct (Hv x y).
  - exists e. split; [done|]. by eapply iterate_raises_TypeError.
Qed.

Lemma unpack3_fails v :
  (∀ x y z, iterate v ≠ Ok [x; y; z]) →
  ∃ e, unpack3 v = Raise e ∧
       exn_class e = match iterate v with Ok _ => ValueError | Raise _ => TypeError end.
Proof.
  intros Hv. unfold unpack3.
  destruct (iterate v) as [[|x [|y [|z [|u l]]]]|e] eqn:Hit; eauto.
  - by destruct (Hv x y z).
  - exists e. split; [done|]. by eapply iterate_raises_TypeError.
Qed.

Lemma init_backbone_unpack_raises cls self a w r f v e :
  backbones cls = AttrValue r →
  FlashRegistry.get r (backbone a) = Ok f →
  call f [("pretrained", VBool (pretrained a))]
    (Some (default ∅ (backbone_kwargs a))) = Ok v →
  unpack2 v = Raise e →
  (ImageEmbedder.__init__ cls self a w).1 = Raise e.
Proof. intros. start_init. by use_resolved. Qed.

Lemma init_strategy_unpack_raises cls self a w vb r m v e :
  backbone_resolved cls a vb →
  training_strategies cls = AttrValue r →
  FlashRegistry.get_with_metadata r (training_strategy a) = Ok m →
  call (FlashRegistry.fn m) [("head", VStr (head a))]
    (Some (default ∅ (training_strategy_kwargs a))) = Ok v →
  unpack3 v = Raise e →
  (ImageEmbedder.__init__ cls self a w).1 = Raise e.
Proof. intros (rb & fb & rvb & vx & ? & ? & ? & ?) **. start_init. by use_resolved. Qed.

Lemma init_transform_unpack_raises cls self a w vb vl vh vk ac st r f v e :
  backbone_resolved cls a vb →
  strategy_resolved cls a vl vh vk ac →
  adapter_class_init ac vl vb vh vk = Ok st →
  transforms cls = AttrValue r →
  FlashRegistry.get r (pretraining_transform a) = Ok f →
  call f [] (pretraining_transform_kwargs a) = Ok v →
  unpack2 v = Raise e →
  (ImageEmbedder.__init__ cls self a w).1 = Raise e.
Proof.
  intros (rb & fb & rvb & vx & ? & ? & ? & ?) (rs & ms & rvs & ? & ? & ? & ? & ?) Hinit **.
  start_init. use_resolved. use_adapter_class.
  rewrite bind_run. unfold Adapter.from_task. rewrite Hinit.
  unfold AdapterTask.__init__. rewrite bind_modify. by use_resolved.
Qed.

(** X7.  A factory has to answer with a value that yields, when iterated,
    as many items as the constructor unpacks: two for the backbone and the
    transform, three for the strategy.  A result that cannot be iterated
    makes the construction raise [TypeError], a result that yields another
    number of items makes it raise [ValueError] (a string of two characters
    unpacks, a string of three does not).  For the backbone and the
    strategy no adapter has been made by then; for the transform the
    adapter is made and installed, with none of the four states set. *)
Theorem factory_result_must_unpack cls a w :
  (∀ r f v,
     backbones cls = AttrValue r →
     FlashRegistry.get r (backbone a) = Ok f →
     call f [("pretrained", VBool (pretrained a))]
       (Some (default ∅ (backbone_kwargs a))) = Ok v →
     (∀ x y, iterate v ≠ Ok [x; y]) →
     ∃ e, ImageEmbedder.construct cls a w = (Raise e, hparams_only a w) ∧
          exn_class e =
            match iterate v with Ok _ => ValueError | Raise _ => TypeError end) ∧
  (∀ vb r m v,
     backbone_resolved cls a vb →
     training_strategies cls = AttrValue r →
     FlashRegistry.get_with_metadata r (training_strategy a) = Ok m →
     call (FlashRegistry.fn m) [("head", VStr (head a))]
       (Some (default ∅ (training_strategy_kwargs a))) = Ok v →
     (∀ x y z, iterate v ≠ Ok [x; y; z]) →
     ∃ e, ImageEmbedder.construct cls a w = (Raise e, hparams_only a w) ∧
          exn_class e =
            match iterate v with Ok _ => ValueError | Raise _ => TypeError end) ∧
  (∀ vb vl vh vk ac st r f v,
     backbone_resolved cls a vb →
     strategy_resolved cls a vl vh vk ac →
     adapter_class_init ac vl vb vh vk = Ok st →
     transforms cls = AttrValue r →
     FlashRegistry.get r (pretraining_transform a) = Ok f →
     call f [] (pretraining_transform_kwargs a) = Ok v →
     (∀ x y, iterate v ≠ Ok [x; y]) →
     ∃ e, ImageEmbedder.construct cls a w =
            (Raise e, half_built a ac vl vb vh vk st w) ∧
          exn_class e =
            match iterate v with Ok _ => ValueError | Raise _ => TypeError end).
Proof.
  split; [|split].
  - intros r f v Hr Hf Hcall Hv.
    destruct (unpack2_fails v Hv) as (e & He & Hclass).
    exists e. split; [|done]. apply construct_raise_no_backbone.
    + apply construct_init_raises. intros. by eapply init_backbone_unpack_raises.
    + intros vb (r' & f' & v' & x & Hr' & Hf' & Hcall' & Hu').
      assert (v' = v) as -> by congruence. congruence.
  - intros vb r m v Hb Hr Hm Hcall Hv.
    destruct (unpack3_fails v Hv) as (e & He & Hclass).
    exists e. split; [|done]. apply construct_raise_no_strategy.
    + apply construct_init_raises. intros. by eapply init_strategy_unpack_raises.
    + intros vl vh vk ac (r' & m' & v' & Hr' & Hm' & Hcall' & Hu' & _).
      assert (m' = m) as -> by congruence.
      assert (v' = v) as -> by congruence. congruence.
  - intros vb vl vh vk ac st r f v Hb Hs Hinit Hr Hf Hcall Hv.
    destruct (unpack2_fails v Hv) as (e & He & Hclass).
    exists e. split; [|done].
    assert ((ImageEmbedder.construct cls a w).1 = Raise e) as Hraise.
    { apply construct_init_raises. intros. by eapply init_transform_unpack_raises. }
    rewrite <-Hraise, <-(construct_raise_after_adapter _ _ _ _ _ _ _ _ _ _ Hb Hs Hinit Hraise).
    by destruct (ImageEmbedder.construct _ _ _).
Qed.

Lemma factory_result_must_unpack_witness :
  ∃ e, ImageEmbedder.construct Fixtures.lone_cls Scenario.args Scenario.w0 =
         (Raise e, hparams_only Scenario.args Scenario.w0) ∧
       exn_class e = TypeError.
Proof.
  apply (proj1 (factory_result_must_unpack Fixtures.lone_cls Scenario.args Scenario.w0)
           (FlashRegistry.register "dummy" Fixtures.lone_backbone ∅
              (FlashRegistry.new "backbones"))
           Fixtures.lone_backbone (VObj "DummyBackbone" 0)).
  - reflexivity.
  - reflexivity.
  - vm_compute. reflexivity.
  - discriminate.
Defined.

(** ** Metadata without an adapter class *)

Lemma init_adapter_entry_raises cls self a w vb r m vl vh vk e :
  backbone_resolved cls a vb →
  training_strategies cls = AttrValue r →
  FlashRegistry.get_with_metadata r (training_strategy a) = Ok m →
  call (FlashRegistry.fn m) [("head", VStr (head a))]
    (Some (default ∅ (training_strategy_kwargs a))) = Ok (VTuple [vl; vh; vk]) →
  getitem (FlashRegistry.metadata m) "adapter" = Raise e →
  (ImageEmbedder.__init__ cls self a w).1 = Raise e.
Proof. intros (rb & fb & rvb & vx & ? & ? & ? & ?) **. start_init. by use_resolved. Qed.

Lemma init_adapter_class_raises cls self a w vb r m vl vh vk v e :
  backbone_resolved cls a vb →
  training_strategies cls = AttrValue r →
  FlashRegistry.get_with_metadata r (training_strategy a) = Ok m →
  call (FlashRegistry.fn m) [("head", VStr (head a))]
    (Some (default ∅ (training_strategy_kwargs a))) = Ok (VTuple [vl; vh; vk]) →
  getitem (FlashRegistry.metadata m) "adapter" = Ok v →
  ImageEmbedder.adapter_class_of v = Raise e →
  (ImageEmbedder.__init__ cls self a w).1 = Raise e.
Proof. intros (rb & fb & rvb & vx & ? & ? & ? & ?) **. start_init. by use_resolved. Qed.

(** X8.  A strategy whose metadata do not name an adapter class makes the
    construction raise although every key is registered and the strategy
    factory has answered: [KeyError] on "adapter", an error of the
    [LookupError] kind, when the metadata have no such entry, and
    [AttributeError] when the entry is not a class with [from_task].  No
    adapter is made. *)
Theorem strategy_metadata_must_name_adapter cls a w vb r m vl vh vk :
  backbone_resolved cls a vb →
  training_strategies cls = AttrValue r →
  FlashRegistry.get_with_metadata r (training_strategy a) = Ok m →
  call (FlashRegistry.fn m) [("head", VStr (head a))]
    (Some (default ∅ (training_strategy_kwargs a))) = Ok (VTuple [vl; vh; vk]) →
  (∀ c, FlashRegistry.metadata m !! "adapter" ≠ Some (MClass c)) →
  ∃ e, ImageEmbedder.construct cls a w = (Raise e, hparams_only a w) ∧
       match FlashRegistry.metadata m !! "adapter" with
       | None => e = mkExn KeyError "adapter" ∧ is_LookupError e = true
       | Some _ => exn_class e = AttributeError
       end.
Proof.
  intros Hb Hr Hm Hcall Hmeta.
  assert (∀ vl' vh' vk' ac, ¬ strategy_resolved cls a vl' vh' vk' ac) as Hnone.
  { intros vl' vh' vk' ac (r' & m' & v' & Hr' & Hm' & _ & _ & Ha).
    apply (Hmeta ac). congruence. }
  destruct (FlashRegistry.metadata m !! "adapter") as [[c|v]|] eqn:Hlook.
  - by destruct (Hmeta c).
  - exists (mkExn AttributeError "object has no attribute from_task").
    split; [|reflexivity]. apply construct_raise_no_strategy; [|done].
    apply construct_init_raises. intros.
    eapply init_adapter_class_raises with (v := MValue v); [done..| |reflexivity].
    unfold getitem. by rewrite Hlook.
  - eexists. split; [|done]. apply construct_raise_no_strategy; [|done].
    apply construct_init_raises. intros.
    eapply init_adapter_entry_raises; [done..|].
    unfold getitem. by rewrite Hlook.
Qed.

Lemma strategy_metadata_must_name_adapter_witness :
  ImageEmbedder.construct Fixtures.plain_cls Scenario.args Scenario.w0 =
    (Raise (mkExn KeyError "adapter"), hparams_only Scenario.args Scenario.w0).
Proof.
  destruct (strategy_metadata_must_name_adapter Fixtures.plain_cls Scenario.args
              Scenario.w0 (VObj "DummyBackbone" 0)
              (FlashRegistry.register "noop" Scenario.noop_strategy ∅
                 (FlashRegistry.new "embedder_training_strategies"))
              Fixtures.plain_strategy_entry
              (VObj "IdentityLoss" 0) (VObj "identity_head" 0) (VTuple []))
    as (e & Hrun & He).
  - apply scenario_backbone_resolved; reflexivity.
  - reflexivity.
  - reflexivity.
  - vm_compute. reflexivity.
  - intros c. vm_compute. discriminate.
  - destruct He as [-> _]. exact Hrun.
Defined.

(** X9.  The task that a construction returns is new in the store; it
    holds the arguments of the call as they were passed (a keyword
    dictionary given as [None] is saved as [None]), an adapter, and the
    optimizer, scheduler, their keyword arguments and the learning rate
    exactly as passed. *)
Theorem constructed_task_records_arguments cls a w self :
  (ImageEmbedder.construct cls a w).1 = Ok self →
  tasks w !! self = None ∧
  ∃ ad,
    tasks (ImageEmbedder.construct cls a w).2 !! self =
      Some {| task_hparams := Some a;
              task_adapter := Some ad;
              task_config :=
                Some {| cfg_optimizer := optimizer a;
                        cfg_optimizer_kwargs := optimizer_kwargs a;
                        cfg_scheduler := scheduler a;
                        cfg_scheduler_kwargs := scheduler_kwargs a;
                        cfg_learning_rate := learning_rate a |} |}.
Proof.
  intros (c & _ & -> & Hrun)%construct_ok_inv. rewrite Hrun. simpl.
  split; [apply fresh_task_None|].
  eexists. apply lookup_insert_eq.
Qed.

Lemma constructed_task_records_arguments_witness :
  (tasks (ImageEmbedder.construct Scenario.cls Scenario.args Scenario.w0).2 !! 0)
    ≫= task_hparams = Some Scenario.args.
Proof.
  destruct (constructed_task_records_arguments Scenario.cls Scenario.args Scenario.w0 0
              scenario_constructs) as (_ & ad & ->).
  reflexivity.
Defined.

(** ** Two tasks *)

Lemma fresh_after_insert {A} (m : gmap loc A) x :
  fresh (dom (<[fresh (dom m) := x]> m)) ≠ fresh (dom m).
Proof.
  intros Heq. pose proof (is_fresh (dom (<[fresh (dom m) := x]> m))) as H.
  rewrite Heq in H. apply H. rewrite dom_insert_L. set_solver.
Qed.

(** X10.  Two constructions, one after the other, return two different
    tasks with two different adapters; the second leaves the first task and
    its adapter as they were, and each emits the override warning, so that
    the warning has been emitted twice. *)
Theorem two_constructions_share_nothing cls1 a1 cls2 a2 w self1 self2 :
  (ImageEmbedder.construct cls1 a1 w).1 = Ok self1 →
  (ImageEmbedder.construct cls2 a2 (ImageEmbedder.construct cls1 a1 w).2).1 = Ok self2 →
  ∃ ad1 ad2,
    let w1 := (ImageEmbedder.construct cls1 a1 w).2 in
    let w2 := (ImageEmbedder.construct cls2 a2 w1).2 in
    self1 ≠ self2 ∧
    ad1 ≠ ad2 ∧
    adapter_of w2 self1 = Some ad1 ∧
    adapter_of w2 self2 = Some ad2 ∧
    tasks w2 !! self1 = tasks w1 !! self1 ∧
    adapters w2 !! ad1 = adapters w1 !! ad1 ∧
    warnings w2 =
      warnings w ++ [ImageEmbedder.override_warning; ImageEmbedder.override_warning].
Proof.
  intros (c1 & _ & -> & Hrun1)%construct_ok_inv. rewrite Hrun1. simpl.
  intros (c2 & _ & -> & Hrun2)%construct_ok_inv. rewrite Hrun2. simpl.
  exists (fresh (dom (adapters w))),
         (fresh (dom (<[fresh (dom (adapters w)) :=
                         installed_adapter (fresh (dom (tasks w))) c1]> (adapters w)))).
  pose proof (fresh_after_insert (tasks w)
                {| task_hparams := Some a1;
                   task_adapter := Some (fresh (dom (adapters w)));
                   task_config := Some (config_of a1) |}) as Hself.
  pose proof (fresh_after_insert (adapters w)
                (installed_adapter (fresh (dom (tasks w))) c1)) as Had.
  split; [done|]. split; [done|].
  unfold adapter_of. simpl.
  rewrite lookup_insert_eq, !lookup_insert_ne by done. rewrite lookup_insert_eq.
  repeat split.
  - by rewrite lookup_insert_ne.
  - by rewrite <-app_assoc.
Qed.

Lemma two_constructions_share_nothing_witness :
  adapter_of Fixtures.w2 0 = Some 0 ∧
  adapter_of Fixtures.w2 1 = Some 1 ∧
  warnings Fixtures.w2 =
    [ImageEmbedder.override_warning; ImageEmbedder.override_warning].
Proof.
  destruct (two_constructions_share_nothing Scenario.cls Scenario.args
              Scenario.cls Scenario.args Scenario.w0 0 1)
    as (ad1 & ad2 & _ & _ & H1 & H2 & _ & _ & Hwarn).
  - exact scenario_constructs.
  - vm_compute. reflexivity.
  - split; [vm_compute; reflexivity|]. split; [vm_compute; reflexivity|]. exact Hwarn.
Defined.

(** X11.  With two constructed tasks in the store, callbacks sent to one
    of them reach its own adapter, which receives exactly these calls, and
    leave the adapter of the other task as it was. *)
Theorem callbacks_reach_only_their_task cls1 a1 cls2 a2 w self1 self2 cs :
  (ImageEmbedder.construct cls1 a1 w).1 = Ok self1 →
  (ImageEmbedder.construct cls2 a2 (ImageEmbedder.construct cls1 a1 w).2).1 = Ok self2 →
  let w2 := (ImageEmbedder.construct cls2 a2 (ImageEmbedder.construct cls1 a1 w).2).2 in
  (∃ o1, adapter_obj_of (invoke_all self1 cs w2).2 self1 = Some o1 ∧
         adapter_calls o1 = cs) ∧
  adapter_obj_of (invoke_all self1 cs w2).2 self2 = adapter_obj_of w2 self2 ∧
  (∃ o2, adapter_obj_of (invoke_all self2 cs w2).2 self2 = Some o2 ∧
         adapter_calls o2 = cs) ∧
  adapter_obj_of (invoke_all self2 cs w2).2 self1 = adapter_obj_of w2 self1.
Proof.
  intros (c1 & _ & -> & Hrun1)%construct_ok_inv. rewrite Hrun1. cbn [fst snd].
  intros (c2 & _ & -> & Hrun2)%construct_ok_inv. rewrite Hrun2. cbn [fst snd].
  set (w1 := constructed a1 c1 w).
  pose proof (constructed_adapter_of a2 c2 w1) as Had2.
  pose proof (constructed_adapter_obj a2 c2 w1) as Ho2.
  pose proof (fresh_after_insert (tasks w)
                {| task_hparams := Some a1;
                   task_adapter := Some (fresh (dom (adapters w)));
                   task_config := Some (config_of a1) |}) as Hself.
  pose proof (fresh_after_insert (adapters w)
                (installed_adapter (fresh (dom (tasks w))) c1)) as Had.
  assert (adapter_of (constructed a2 c2 w1) (fresh (dom (tasks w)))
          = Some (fresh (dom (adapters w)))) as Had1.
  { unfold adapter_of, constructed, w1. simpl.
    rewrite lookup_insert_ne by done. by rewrite lookup_insert_eq. }
  assert (adapters (constructed a2 c2 w1) !! fresh (dom (adapters w))
          = Some (installed_adapter (fresh (dom (tasks w))) c1)) as Ho1.
  { unfold constructed, w1. simpl.
    rewrite lookup_insert_ne by done. by rewrite lookup_insert_eq. }
  change (fresh (dom (tasks (constructed a1 c1 w)))) with (fresh (dom (tasks w1))).
  rewrite (invoke_all_live _ cs _ _ _ Had1 Ho1), (invoke_all_live _ cs _ _ _ Had2 Ho2).
  unfold adapter_obj_of. cbn [fst snd].
  change (adapter_of ?x ?s) with (tasks x !! s ≫= task_adapter). cbn [tasks adapters].
  change (tasks (constructed a2 c2 w1) !! ?s ≫= task_adapter)
    with (adapter_of (constructed a2 c2 w1) s).
  rewrite Had1, Had2. cbn [mbind option_bind].
  repeat split.
  - eexists. rewrite lookup_insert_eq. split; [done|]. by rewrite foldl_received_calls.
  - by rewrite lookup_insert_ne.
  - eexists. rewrite lookup_insert_eq. split; [done|]. by rewrite foldl_received_calls.
  - by rewrite lookup_insert_ne.
Qed.

Lemma callbacks_reach_only_their_task_witness :
  adapter_obj_of (invoke_all 0 [call_on_train_start; call_on_train_epoch_end] Fixtures.w2).2 1
    = adapter_obj_of Fixtures.w2 1.
Proof.
  refine (proj1 (proj2 (callbacks_reach_only_their_task Scenario.cls Scenario.args
                          Scenario.cls Scenario.args Scenario.w0 0 1
                          [call_on_train_start; call_on_train_epoch_end] _ _))).
  - exact scenario_constructs.
  - vm_compute. reflexivity.
Defined.

(** ** Keys of a construction that returns *)

Lemma get_with_metadata_listed r key m :
  FlashRegistry.get_with_metadata r key = Ok m → key ∈ FlashRegistry.available_keys r.
Proof.
  intros Hm. destruct (decide (key ∈ FlashRegistry.available_keys r)) as [|Hnot]; [done|].
  destruct (get_with_metadata_absent r key Hnot) as (e & He & _). congruence.
Qed.

Lemma get_listed r key f :
  FlashRegistry.get r key = Ok f → key ∈ FlashRegistry.available_keys r.
Proof.
  intros Hf. destruct (decide (key ∈ FlashRegistry.available_keys r)) as [|Hnot]; [done|].
  destruct (get_absent r key Hnot) as (e & He & _). congruence.
Qed.

(** X12.  The keys of a construction that returns a task are listed: its
    [training_strategy] is among what [available_training_strategies]
    returns for the class, and its [backbone] and [pretraining_transform]
    are among the keys of the registries of the class. *)
Theorem constructed_keys_are_listed cls a w self w' :
  (ImageEmbedder.construct cls a w).1 = Ok self →
  ∃ keys rb rt,
    ImageEmbedder.available_training_strategies cls w' = (Ok keys, w') ∧
    training_strategy a ∈ keys ∧
    backbones cls = AttrValue rb ∧
    backbone a ∈ FlashRegistry.available_keys rb ∧
    transforms cls = AttrValue rt ∧
    pretraining_transform a ∈ FlashRegistry.available_keys rt.
Proof.
  intros (c & (Hb & Hs & _ & Ht) & _)%construct_ok_inv.
  destruct Hb as (rb & fb & rvb & vx & Hrb & Hfb & _).
  destruct Hs as (rs & ms & rvs & Hrs & Hms & _).
  destruct Ht as (rt & ft & rvt & Hrt & Hft & _).
  exists (FlashRegistry.available_keys rs), rb, rt.
  split. { unfold ImageEmbedder.available_training_strategies. by rewrite Hrs. }
  split; [by eapply get_with_metadata_listed|].
  split; [done|]. split; [by eapply get_listed|].
  split; [done|]. by eapply get_listed.
Qed.

Lemma constructed_keys_are_listed_witness :
  ∃ keys,
    ImageEmbedder.available_training_strategies Scenario.cls Scenario.w0
      = (Ok keys, Scenario.w0) ∧
    "noop" ∈ keys.
Proof.
  destruct (constructed_keys_are_listed Scenario.cls Scenario.args Scenario.w0 0
              Scenario.w0 scenario_constructs)
    as (keys & _ & _ & Hlist & Hin & _).
  exists keys. split; [exact Hlist | exact Hin].
Defined.

(** X13.  A construction that returns a task was called with a
    dictionary for [pretraining_transform_kwargs], with a [backbone_kwargs]
    that does not hold "pretrained" and with a [training_strategy_kwargs]
    that does not hold "head". *)
Theorem construction_needs_keyword_dicts cls a w self :
  (ImageEmbedder.construct cls a w).1 = Ok self →
  (∃ kw, pretraining_transform_kwargs a = Some kw) ∧
  (∀ kw, backbone_kwargs a = Some kw → kw !! "pretrained" = None) ∧
  (∀ kw, training_strategy_kwargs a = Some kw → kw !! "head" = None).
Proof.
  intros (c & (Hb & Hs & _ & Ht) & _)%construct_ok_inv.
  destruct Hb as (rb & fb & rvb & vx & _ & _ & Hcb & _).
  destruct Hs as (rs & ms & rvs & _ & _ & Hcs & _).
  destruct Ht as (rt & ft & rvt & _ & _ & Hct & _).
  split; [|split].
  - destruct (pretraining_transform_kwargs a) as [kw|]; [eauto | discriminate Hct].
  - intros kw Hkw. rewrite Hkw in Hcb. unfold call in Hcb. simpl in Hcb.
    destruct (kw !! "pretrained") as [v|] eqn:Hv; [|done].
    rewrite bool_decide_eq_true_2 in Hcb by eauto. discriminate Hcb.
  - intros kw Hkw. rewrite Hkw in Hcs. unfold call in Hcs. simpl in Hcs.
    destruct (kw !! "head") as [v|] eqn:Hv; [|done].
    rewrite bool_decide_eq_true_2 in Hcs by eauto. discriminate Hcs.
Qed.

Lemma construction_needs_keyword_dicts_witness :
  ∃ kw, pretraining_transform_kwargs Scenario.args = Some kw.
Proof.
  exact (proj1 (construction_needs_keyword_dicts Scenario.cls Scenario.args Scenario.w0 0
                  scenario_constructs)).
Defined.
